(** * Welcome Wizard views: a shallow embedding of [welcome_wizard/views.py]

    The views are glue over the host application's ORM, job queue, message
    framework and git-repository sync.  Those collaborators are modelled as
    one explicit [World]: the tables the views read and write, the queues
    they append to, and the log of ORM calls they issue.  A view method is a
    computation in a state-and-exception monad over that world; a Python
    exception leaves the world as it was when it was raised. *)

From stdpp Require Import base strings list gmap pretty.

Open Scope string_scope.
Open Scope list_scope.
Open Scope nat_scope.

(** ** Models *)

(** The seven inventory models the dashboard tracks (imported by the views
    from [nautobot.dcim], [nautobot.circuits], [nautobot.ipam] and
    [nautobot.virtualization]). *)
Inductive NautobotModel :=
  | Location | Manufacturer | DeviceType
  | CircuitType | Provider | RIR | ClusterType.

(** The two import models a wizard view is configured with. *)
Inductive ImportModel := ManufacturerImport | DeviceTypeImport.

Inductive Table :=
  | T_Nautobot (m : NautobotModel)
  | T_Import (m : ImportModel)
  | T_Merlin
  | T_GitRepository
  | T_Job.

#[global] Instance NautobotModel_eq_dec : EqDecision NautobotModel.
Proof. solve_decision. Defined.
#[global] Instance ImportModel_eq_dec : EqDecision ImportModel.
Proof. solve_decision. Defined.
#[global] Instance Table_eq_dec : EqDecision Table.
Proof. solve_decision. Defined.

(** A row of [ManufacturerImport] or [DeviceTypeImport]: the views read its
    primary key, [name] and [filename] only. *)
Record ImportCandidate := {
  pk : string;
  name : string;
  filename : string;
}.

(** A row of the dashboard table [Merlin]. *)
Record Merlin := {
  merlin_name : string;
  completed : bool;
  ignored : bool;
  nautobot_model : NautobotModel;
  nautobot_add_link : string;
  merlin_link : string;
  nautobot_list_link : string;
}.

Record GitRepository := {
  repo_name : string;
  slug : string;
  remote_url : string;
  provided_contents : list string;
  branch : string;
}.

Record Job := { job_name : string }.

Record User := { username : string }.

#[global] Instance ImportCandidate_eq_dec : EqDecision ImportCandidate.
Proof. solve_decision. Defined.
#[global] Instance Merlin_eq_dec : EqDecision Merlin.
Proof. solve_decision. Defined.
#[global] Instance GitRepository_eq_dec : EqDecision GitRepository.
Proof. solve_decision. Defined.

(** ** Effects *)

(** One call of [JobResult.enqueue_job]: the job model, the user and the
    keyword arguments handed to the job. *)
Record EnqueuedJob := {
  job_model : Job;
  job_user : User;
  job_kwargs : list (string * string);
}.

(** An ORM call issued by a view, as [assertNumQueries] would count it. *)
Inductive OrmCall :=
  | OrmExists (t : Table)
  | OrmGet (t : Table) (field value : string)
  | OrmFilterIn (t : Table) (field : string) (values : list string)
  | OrmAll (t : Table)
  | OrmUpdate (t : Table) (field value : string) (new_completed : bool)
  | OrmInsert (t : Table).

(** Python exceptions the views can meet. *)
Inductive exn :=
  | DoesNotExist (t : Table)
  | MultipleObjectsReturned (t : Table)
  | MultiValueDictKeyError (key : string).

Record World := {
  (** [settings.PLUGINS_CONFIG["welcome_wizard"]] *)
  plugin_config : gmap string bool;
  (** number of rows of each inventory model *)
  nautobot_objects : NautobotModel → nat;
  (** rows of [ManufacturerImport] and [DeviceTypeImport], in table order *)
  import_objects : ImportModel → list ImportCandidate;
  merlins : list Merlin;
  git_repositories : list GitRepository;
  jobs : list Job;
  (** calls of [JobResult.enqueue_job], oldest first *)
  job_queue : list EnqueuedJob;
  (** calls of [enqueue_pull_git_repository_and_refresh_data] *)
  git_sync_queue : list (GitRepository * User);
  (** texts handed to [messages.success] *)
  flash_messages : list string;
  (** ORM calls issued so far *)
  orm_log : list OrmCall;
}.

Definition set_merlins (f : list Merlin → list Merlin) (w : World) : World :=
  {| plugin_config := plugin_config w; nautobot_objects := nautobot_objects w;
     import_objects := import_objects w; merlins := f (merlins w);
     git_repositories := git_repositories w; jobs := jobs w;
     job_queue := job_queue w; git_sync_queue := git_sync_queue w;
     flash_messages := flash_messages w; orm_log := orm_log w |}.

Definition set_git_repositories (f : list GitRepository → list GitRepository)
    (w : World) : World :=
  {| plugin_config := plugin_config w; nautobot_objects := nautobot_objects w;
     import_objects := import_objects w; merlins := merlins w;
     git_repositories := f (git_repositories w); jobs := jobs w;
     job_queue := job_queue w; git_sync_queue := git_sync_queue w;
     flash_messages := flash_messages w; orm_log := orm_log w |}.

Definition set_job_queue (f : list EnqueuedJob → list EnqueuedJob)
    (w : World) : World :=
  {| plugin_config := plugin_config w; nautobot_objects := nautobot_objects w;
     import_objects := import_objects w; merlins := merlins w;
     git_repositories := git_repositories w; jobs := jobs w;
     job_queue := f (job_queue w); git_sync_queue := git_sync_queue w;
     flash_messages := flash_messages w; orm_log := orm_log w |}.

Definition set_git_sync_queue
    (f : list (GitRepository * User) → list (GitRepository * User))
    (w : World) : World :=
  {| plugin_config := plugin_config w; nautobot_objects := nautobot_objects w;
     import_objects := import_objects w; merlins := merlins w;
     git_repositories := git_repositories w; jobs := jobs w;
     job_queue := job_queue w; git_sync_queue := f (git_sync_queue w);
     flash_messages := flash_messages w; orm_log := orm_log w |}.

Definition set_flash_messages (f : list string → list string)
    (w : World) : World :=
  {| plugin_config := plugin_config w; nautobot_objects := nautobot_objects w;
     import_objects := import_objects w; merlins := merlins w;
     git_repositories := git_repositories w; jobs := jobs w;
     job_queue := job_queue w; git_sync_queue := git_sync_queue w;
     flash_messages := f (flash_messages w); orm_log := orm_log w |}.

Definition set_orm_log (f : list OrmCall → list OrmCall) (w : World) : World :=
  {| plugin_config := plugin_config w; nautobot_objects := nautobot_objects w;
     import_objects := import_objects w; merlins := merlins w;
     git_repositories := git_repositories w; jobs := jobs w;
     job_queue := job_queue w; git_sync_queue := git_sync_queue w;
     flash_messages := flash_messages w; orm_log := f (orm_log w) |}.

(** The monad of view code: world passing, with Python exceptions. *)
Definition Eff (A : Type) : Type := World → World * (exn + A).

Definition ret {A} (a : A) : Eff A := λ w, (w, inr a).

Definition bind {A B} (m : Eff A) (k : A → Eff B) : Eff B :=
  λ w, match m w with
       | (w', inr a) => k a w'
       | (w', inl e) => (w', inl e)
       end.

Definition raise {A} (e : exn) : Eff A := λ w, (w, inl e).

(** [try: body except <handles>: handler] *)
Definition try_except {A} (body : Eff A) (handles : exn → bool)
    (handler : Eff A) : Eff A :=
  λ w, match body w with
       | (w', inl e) => if handles e then handler w' else (w', inl e)
       | r => r
       end.

Definition gets {A} (f : World → A) : Eff A := λ w, (w, inr (f w)).
Definition modify (f : World → World) : Eff unit := λ w, (f w, inr tt).

Declare Scope eff_scope.
Delimit Scope eff_scope with eff.
Notation "x <- m ;; k" := (bind m (λ x, k))
  (at level 100, m at next level, right associativity) : eff_scope.
Notation "m ;; k" := (bind m (λ _, k))
  (at level 100, right associativity) : eff_scope.
Open Scope eff_scope.

(** [for x in xs: acc = body(acc, x)], the loop's local state threaded. *)
Fixpoint for_each {A S} (xs : list A) (body : S → A → Eff S) (acc : S) : Eff S :=
  match xs with
  | [] => ret acc
  | x :: xs' => acc' <- body acc x ;; for_each xs' body acc'
  end.

(** ** The ORM, as the views use it *)

Definition log_call (c : OrmCall) : Eff unit :=
  modify (set_orm_log (λ l, l ++ [c])).

(** [Model.objects.get(field=value)] over the rows [rows]: the one row
    that matches, [DoesNotExist] for none, [MultipleObjectsReturned] for
    several. *)
Definition objects_get {A} (t : Table) (rows : list A)
    (field value : string) (P : A → Prop) `{!∀ x, Decision (P x)} : Eff A :=
  log_call (OrmGet t field value) ;;
  match filter P rows with
  | [] => raise (DoesNotExist t)
  | [r] => ret r
  | _ => raise (MultipleObjectsReturned t)
  end.

Definition is_DoesNotExist (t : Table) (e : exn) : bool :=
  match e with
  | DoesNotExist t' => bool_decide (t = t')
  | _ => false
  end.

(** [Model.objects.exists()] on an inventory model. *)
Definition nautobot_exists (m : NautobotModel) : Eff bool :=
  log_call (OrmExists (T_Nautobot m)) ;;
  n <- gets (λ w, nautobot_objects w m) ;;
  ret (bool_decide (0 < n)).

(** [queryset.exists()] on an import model. *)
Definition import_exists (m : ImportModel) : Eff bool :=
  log_call (OrmExists (T_Import m)) ;;
  rows <- gets (λ w, import_objects w m) ;;
  ret (bool_decide (rows ≠ [])).

(** Iterating [Model.objects.filter(pk__in=pk_list)]: the rows of the
    table whose primary key is in the list, each once, in table order. *)
Definition import_filter_pk_in (m : ImportModel) (pk_list : list string)
    : Eff (list ImportCandidate) :=
  log_call (OrmFilterIn (T_Import m) "pk" pk_list) ;;
  rows <- gets (λ w, import_objects w m) ;;
  ret (filter (λ r, pk r ∈ pk_list) rows).

Definition with_completed (c : bool) (m : Merlin) : Merlin :=
  {| merlin_name := merlin_name m; completed := c; ignored := ignored m;
     nautobot_model := nautobot_model m;
     nautobot_add_link := nautobot_add_link m; merlin_link := merlin_link m;
     nautobot_list_link := nautobot_list_link m |}.

(** [Merlin.objects.filter(name=var_name).update(completed=completed)] *)
Definition merlin_update_completed (var_name : string) (c : bool) : Eff unit :=
  log_call (OrmUpdate T_Merlin "name" var_name c) ;;
  modify (set_merlins (fmap (λ m,
    if decide (merlin_name m = var_name) then with_completed c m else m))).

(** [Merlin.objects.get(name=var_name)] *)
Definition merlin_get (var_name : string) : Eff Merlin :=
  rows <- gets merlins ;;
  objects_get T_Merlin rows "name" var_name (λ m, merlin_name m = var_name).

(** [Merlin.objects.create(...)] *)
Definition merlin_create (m : Merlin) : Eff unit :=
  log_call (OrmInsert T_Merlin) ;;
  modify (set_merlins (λ l, l ++ [m])).

(** [GitRepository.objects.get(slug=...)] *)
Definition git_repository_get (s : string) : Eff GitRepository :=
  rows <- gets git_repositories ;;
  objects_get T_GitRepository rows "slug" s (λ r, slug r = s).

(** [repo.save()] of a repository built in memory. *)
Definition git_repository_save (r : GitRepository) : Eff unit :=
  log_call (OrmInsert T_GitRepository) ;;
  modify (set_git_repositories (λ l, l ++ [r])).

(** [Job.objects.get(name=...)] *)
Definition job_get (n : string) : Eff Job :=
  rows <- gets jobs ;;
  objects_get T_Job rows "name" n (λ j, job_name j = n).

(** [JobResult.enqueue_job(job_model=job, user=user, **kwargs)] *)
Definition enqueue_job (job : Job) (u : User) (kwargs : list (string * string))
    : Eff unit :=
  modify (set_job_queue (λ q,
    q ++ [{| job_model := job; job_user := u; job_kwargs := kwargs |}])).

(** [enqueue_pull_git_repository_and_refresh_data(repo, user)] *)
Definition enqueue_pull_git_repository_and_refresh_data
    (repo : GitRepository) (u : User) : Eff unit :=
  modify (set_git_sync_queue (λ q, q ++ [(repo, u)])).

(** [messages.success(request, text)] *)
Definition messages_success (text : string) : Eff unit :=
  modify (set_flash_messages (λ l, l ++ [text])).

(** ** Requests and responses *)

(** A [QueryDict] as parsed from a query string or a form body: the
    key/value pairs in the order they were sent. *)
Definition QueryDict := list (string * string).

(** [q.getlist(key)]: all the values of the key, [] when it is absent. *)
Definition getlist (key : string) (q : QueryDict) : list string :=
  snd <$> filter (λ p, p.1 = key) q.

(** [q.get(key)]: the last value of the key, [None] when it is absent. *)
Definition QueryDict_get (key : string) (q : QueryDict) : option string :=
  last (getlist key q).

(** [q[key]]: the last value of the key; raises when it is absent. *)
Definition QueryDict_getitem (key : string) (q : QueryDict) : Eff string :=
  match last (getlist key q) with
  | Some v => ret v
  | None => raise (MultiValueDictKeyError key)
  end.

(** Python truth value of an optional string: [None] and [""] are false. *)
Definition truthy (v : option string) : bool :=
  match v with
  | Some s => bool_decide (s ≠ "")
  | None => false
  end.

Inductive Method := HTTP_GET | HTTP_POST | HTTP_OTHER.

Record HttpRequest := {
  method : Method;
  GET : QueryDict;
  POST : QueryDict;
  user : User;
}.

(** The form classes of [welcome_wizard.forms] the import views use. *)
Inductive FormClass := ManufacturerBulkImportForm | DeviceTypeBulkImportForm.

(** The context [BulkImportView.get] hands to the template. *)
Record ImportContext := {
  ctx_form : FormClass * list (string * list string);
  ctx_obj : ImportCandidate;
  ctx_return_url : string;
  ctx_bulk_import_url : string;
  ctx_breadcrumb_name : string;
}.

Inductive Context :=
  | ImportPage (c : ImportContext)
  | ObjectList (rows : list ImportCandidate)
  | DashboardList (rows : list Merlin).

Inductive HttpResponse :=
  | HttpResponseRedirect (to : string)
  | HttpResponseForbidden
  | HttpResponseNotAllowed
  | Rendered (template_name : string) (context : Context).

(** ** [check_sync] and the list views *)

(** The class attributes of a wizard list view that the views read. *)
Record ListView := {
  lv_permission_required : string;
  lv_queryset : ImportModel;
  lv_template_name : string;
}.

Definition devicetype_library : GitRepository :=
  {| repo_name := "Devicetype-library";
     slug := "devicetype_library";
     remote_url := "https://github.com/netbox-community/devicetype-library.git";
     provided_contents := ["welcome_wizard.import_wizard"];
     branch := "master" |}.

(** [and] short-circuits: the queryset is only asked when the flag is set. *)
Definition check_sync (instance : ListView) (request : HttpRequest) : Eff unit :=
  flag <- gets (λ w, plugin_config w !! "enable_devicetype-library") ;;
  if default false flag then
    nonempty <- import_exists (lv_queryset instance) ;;
    if negb nonempty then
      repo <- try_except
                (git_repository_get "devicetype_library")
                (is_DoesNotExist T_GitRepository)
                (let repo := devicetype_library in
                 git_repository_save repo ;; ret repo) ;;
      enqueue_pull_git_repository_and_refresh_data repo (user request)
    else ret tt
  else ret tt.

(** [generic.ObjectListView.get] of the host, as far as the views depend
    on it: it reads the view's queryset and renders the view's template. *)
Definition ObjectListView_get (self : ListView) (request : HttpRequest)
    : Eff HttpResponse :=
  log_call (OrmAll (T_Import (lv_queryset self))) ;;
  rows <- gets (λ w, import_objects w (lv_queryset self)) ;;
  ret (Rendered (lv_template_name self) (ObjectList rows)).

Module ManufacturerListView.
Definition self : ListView :=
    {| lv_permission_required := "welcome_wizard.view_manufacturerimport";
       lv_queryset := ManufacturerImport;
       lv_template_name := "welcome_wizard/manufacturer.html" |}.

Definition get (request : HttpRequest) : Eff HttpResponse :=
    check_sync self request ;;
    ObjectListView_get self request.
End ManufacturerListView.

Module DeviceTypeListView.
Definition self : ListView :=
    {| lv_permission_required := "welcome_wizard.view_devicetypeimport";
       lv_queryset := DeviceTypeImport;
       lv_template_name := "welcome_wizard/devicetype.html" |}.

Definition get (request : HttpRequest) : Eff HttpResponse :=
    check_sync self request ;;
    ObjectListView_get self request.
End DeviceTypeListView.

(** ** The generic bulk import view *)

Definition app_label (m : NautobotModel) : string :=
  match m with
  | Location | Manufacturer | DeviceType => "dcim"
  | CircuitType | Provider => "circuits"
  | RIR => "ipam"
  | ClusterType => "virtualization"
  end.

Definition model_name (m : NautobotModel) : string :=
  match m with
  | Location => "location"
  | Manufacturer => "manufacturer"
  | DeviceType => "devicetype"
  | CircuitType => "circuittype"
  | Provider => "provider"
  | RIR => "rir"
  | ClusterType => "clustertype"
  end.

(** [get_permission_for_model(model, action)] of the host:
    ["{app_label}.{action}_{model_name}"]. *)
Definition get_permission_for_model (m : NautobotModel)
    (action : option string) : string :=
  app_label m +:+ "." +:+ default "None" action +:+ "_" +:+ model_name m.

Module BulkImportView.

(** The class attributes; the two subclasses only override them. *)
Record attrs := {
  return_url : string;
  model : ImportModel;
  form : FormClass;
  bulk_import_url : string;
  breadcrumb_name : string;
  _permission_action : option string;
  permission_required : string;
  queryset : NautobotModel;
}.

Definition set_permission_action (a : option string) (self : attrs) : attrs :=
  {| return_url := return_url self; model := model self; form := form self;
     bulk_import_url := bulk_import_url self;
     breadcrumb_name := breadcrumb_name self;
     _permission_action := a;
     permission_required := permission_required self;
     queryset := queryset self |}.

Definition get_required_permission (self : attrs) : string :=
  get_permission_for_model (queryset self) (_permission_action self).

Section Host.

(** The host's permission backend: [user.has_perms((perm,))]. *)
Variable has_perms : User → string → bool.

(** [form_class(data).is_valid()]; the form classes live in
    [welcome_wizard.forms], their fields may consult the database. *)
Variable is_valid : FormClass → World → QueryDict → bool.

(** [ObjectPermissionRequiredMixin.has_permission] *)
Definition has_permission (self : attrs) (request : HttpRequest) : bool :=
  has_perms (user request) (get_required_permission self).

Definition get (self : attrs) (request : HttpRequest) : Eff HttpResponse :=
  if negb (truthy (QueryDict_get "pk" (GET request))) then
    ret (HttpResponseRedirect (return_url self))
  else
    primarykey <- QueryDict_getitem "pk" (GET request) ;;
    let initial := [("pk", [primarykey])] in
    rows <- gets (λ w, import_objects w (model self)) ;;
    obj <- objects_get (T_Import (model self)) rows "pk" primarykey
             (λ r, pk r = primarykey) ;;
    let form := (form self, initial) in
    ret (Rendered "welcome_wizard/import.html"
           (ImportPage {| ctx_form := form; ctx_obj := obj;
                          ctx_return_url := return_url self;
                          ctx_bulk_import_url := bulk_import_url self;
                          ctx_breadcrumb_name := breadcrumb_name self |})).

(** The body of the loop over the matched rows; [onboarded] is the
    loop's local list. *)
Definition post_body (self : attrs) (request : HttpRequest)
    (onboarded : list string) (obj : ImportCandidate) : Eff (list string) :=
  match model self with
  | ManufacturerImport =>
      job <- job_get "Welcome Wizard - Import Manufacturer" ;;
      enqueue_job job (user request) [("manufacturer_name", name obj)] ;;
      ret (onboarded ++ [name obj])
  | DeviceTypeImport =>
      job <- job_get "Welcome Wizard - Import Device Type" ;;
      enqueue_job job (user request) [("filename", filename obj)] ;;
      ret (onboarded ++ [name obj])
  end.

Definition post (self : attrs) (request : HttpRequest) : Eff HttpResponse :=
  if negb (has_permission self request) then ret HttpResponseForbidden
  else
    valid <- gets (λ w, is_valid (form self) w (POST request)) ;;
    (if valid : bool then
       let pk_list := getlist "pk" (POST request) in
       objs <- import_filter_pk_in (model self) pk_list ;;
       onboarded <- for_each objs (post_body self request) [] ;;
       messages_success
         ("Onboarded " +:+ pretty (length onboarded) +:+ " objects.")
     else ret tt) ;;
    ret (HttpResponseRedirect (return_url self)).

(** [dispatch] fixes the permission action, then Django's [View.dispatch]
    hands the request to the method's handler. *)
Definition dispatch (self : attrs) (request : HttpRequest) : Eff HttpResponse :=
  let self := set_permission_action (Some "add") self in
  match method request with
  | HTTP_GET => get self request
  | HTTP_POST => post self request
  | HTTP_OTHER => ret HttpResponseNotAllowed
  end.

End Host.

End BulkImportView.

Definition ManufacturerBulkImportView : BulkImportView.attrs :=
  {| BulkImportView.model := ManufacturerImport;
     BulkImportView.form := ManufacturerBulkImportForm;
     BulkImportView.return_url := "plugins:welcome_wizard:manufacturers";
     BulkImportView.bulk_import_url := "plugins:welcome_wizard:manufacturer_import";
     BulkImportView.permission_required := "dcim.add_manufacturer";
     BulkImportView.queryset := Manufacturer;
     BulkImportView.breadcrumb_name := "Import Manufacturers";
     BulkImportView._permission_action := None |}.

Definition DeviceTypeBulkImportView : BulkImportView.attrs :=
  {| BulkImportView.model := DeviceTypeImport;
     BulkImportView.form := DeviceTypeBulkImportForm;
     BulkImportView.return_url := "plugins:welcome_wizard:devicetypes";
     BulkImportView.bulk_import_url := "plugins:welcome_wizard:devicetype_import";
     BulkImportView.permission_required := "dcim.add_devicetype";
     BulkImportView.queryset := DeviceType;
     BulkImportView.breadcrumb_name := "Import Device Types";
     BulkImportView._permission_action := None |}.

(** ** The dashboard *)

Module WelcomeWizardDashboard.

(** (model, name, list link, add link, wizard link), in the source's order. *)
Definition descriptors
    : list (NautobotModel * string * string * string * string) :=
  [ (Location, "Locations", "dcim:location_list", "dcim:location_add", "");
    (Manufacturer, "Manufacturers", "dcim:manufacturer_list",
     "dcim:manufacturer_add", "plugins:welcome_wizard:manufacturer_import");
    (DeviceType, "Device Types", "dcim:devicetype_list",
     "dcim:devicetype_add", "plugins:welcome_wizard:devicetype_import");
    (CircuitType, "Circuit Types", "circuits:circuittype_list",
     "circuits:circuittype_add", "");
    (Provider, "Circuit Providers", "circuits:provider_list",
     "circuits:provider_add", "");
    (RIR, "RIRs", "ipam:rir_list", "ipam:rir_add", "");
    (ClusterType, "VM Cluster Types", "virtualization:clustertype_list",
     "virtualization:clustertype_add", "") ].

(** One turn of the loop of [check_data]. *)
Definition check_one
    (d : NautobotModel * string * string * string * string) : Eff unit :=
  let '(nautobot_object, var_name, list_url, new_url, wizard_url) := d in
  completed <- nautobot_exists nautobot_object ;;
  merlin_id <- try_except
                 (merlin_update_completed var_name completed ;;
                  m <- merlin_get var_name ;;
                  ret (Some m))
                 (is_DoesNotExist T_Merlin)
                 (ret None) ;;
  match merlin_id with
  | None =>
      merlin_create
        {| merlin_name := var_name; completed := completed; ignored := false;
           nautobot_model := nautobot_object; nautobot_add_link := new_url;
           merlin_link := wizard_url; nautobot_list_link := list_url |}
  | Some _ => ret tt
  end.

Definition check_data : Eff unit :=
  for_each descriptors (λ _ d, check_one d) tt.

(** [generic.ObjectListView.get] of the host on the dashboard's queryset
    [Merlin.objects.all()]. *)
Definition super_get (request : HttpRequest) : Eff HttpResponse :=
  log_call (OrmAll T_Merlin) ;;
  rows <- gets merlins ;;
  ret (Rendered "welcome_wizard/dashboard.html" (DashboardList rows)).

Definition get (request : HttpRequest) : Eff HttpResponse :=
  check_data ;;
  super_get request.

End WelcomeWizardDashboard.

(** * Vocabulary of the statements *)

(** The job a bulk import view enqueues for its model, and the keyword
    arguments it builds from a matched row. *)
Definition import_job_name (m : ImportModel) : string :=
  match m with
  | ManufacturerImport => "Welcome Wizard - Import Manufacturer"
  | DeviceTypeImport => "Welcome Wizard - Import Device Type"
  end.

Definition import_job_kwargs (m : ImportModel) (obj : ImportCandidate)
    : list (string * string) :=
  match m with
  | ManufacturerImport => [("manufacturer_name", name obj)]
  | DeviceTypeImport => [("filename", filename obj)]
  end.

(** The rows of the view's model whose primary key was submitted. *)
Definition matched (self : BulkImportView.attrs) (request : HttpRequest)
    (w : World) : list ImportCandidate :=
  filter (λ r, pk r ∈ getlist "pk" (POST request))
         (import_objects w (BulkImportView.model self)).

(** The row a primary key stands for, if any. *)
Definition record_of (rows : list ImportCandidate) (key : string)
    : option ImportCandidate :=
  head (filter (λ r, pk r = key) rows).

(** What [post] hands to the job queue for a matched row. *)
Definition enqueued_for (self : BulkImportView.attrs) (request : HttpRequest)
    (job : Job) (obj : ImportCandidate) : EnqueuedJob :=
  {| job_model := job; job_user := user request;
     job_kwargs := import_job_kwargs (BulkImportView.model self) obj |}.

(** The add-permission on the view's target model. *)
Definition add_permission (self : BulkImportView.attrs) : string :=
  get_permission_for_model (BulkImportView.queryset self) (Some "add").

(** [check_sync] goes on to sync: the flag is set and the view's table is
    empty. *)
Definition sync_due (self : ListView) (w : World) : bool :=
  bool_decide (plugin_config w !! "enable_devicetype-library" = Some true)
  && bool_decide (import_objects w (lv_queryset self) = []).

Definition library_rows (w : World) : list GitRepository :=
  filter (λ r, slug r = "devicetype_library") (git_repositories w).

(** The repository a sync is enqueued with: the stored one, or the one
    [check_sync] creates. *)
Definition library_repo (w : World) : GitRepository :=
  default devicetype_library (head (library_rows w)).

(** A render of a list view on [w] ends in [w'] and has enqueued a sync
    exactly when one was due. *)
Definition renders_with_sync (self : ListView)
    (get : HttpRequest → Eff HttpResponse) (request : HttpRequest)
    (w w' : World) : Prop :=
  ∃ rows,
    get request w
    = (w', inr (Rendered (lv_template_name self) (ObjectList rows))) ∧
    git_sync_queue w'
    = git_sync_queue w
      ++ (if sync_due self w then [(library_repo w, user request)] else []).

(** ** The dashboard table, read off [check_data]

    [check_data] touches the [Merlin] table and the ORM log only.  The
    definitions below are its effect on that pair; [check_one_run] and
    [check_data_run] prove that they are what the embedded code does. *)

Definition Descriptor : Type :=
  NautobotModel * string * string * string * string.

Definition d_model (d : Descriptor) : NautobotModel := d.1.1.1.1.
Definition d_name (d : Descriptor) : string := d.1.1.1.2.

Definition has_rows (inv : NautobotModel → nat) (m : NautobotModel) : bool :=
  bool_decide (0 < inv m).

(** The rows with a given name. *)
Definition named (n : string) (t : list Merlin) : list Merlin :=
  filter (λ m, merlin_name m = n) t.

(** The table after [filter(name=n).update(completed=c)]. *)
Definition mark (n : string) (c : bool) (t : list Merlin) : list Merlin :=
  (λ m, if decide (merlin_name m = n) then with_completed c m else m) <$> t.

(** The row [check_data] creates for a descriptor. *)
Definition created_row (d : Descriptor) (c : bool) : Merlin :=
  let '(nautobot_object, var_name, list_url, new_url, wizard_url) := d in
  {| merlin_name := var_name; completed := c; ignored := false;
     nautobot_model := nautobot_object; nautobot_add_link := new_url;
     merlin_link := wizard_url; nautobot_list_link := list_url |}.

(** The ORM calls of a turn that finds its row. *)
Definition turn_log (inv : NautobotModel → nat) (d : Descriptor)
    : list OrmCall :=
  [OrmExists (T_Nautobot (d_model d));
   OrmUpdate T_Merlin "name" (d_name d) (has_rows inv (d_model d));
   OrmGet T_Merlin "name" (d_name d)].

Definition reconcile_step (inv : NautobotModel → nat) (d : Descriptor)
    (st : list Merlin * list OrmCall)
    : (list Merlin * list OrmCall) * (exn + unit) :=
  let c := has_rows inv (d_model d) in
  let t1 := mark (d_name d) c st.1 in
  let lg1 := st.2 ++ turn_log inv d in
  match named (d_name d) t1 with
  | [] => ((t1 ++ [created_row d c], lg1 ++ [OrmInsert T_Merlin]), inr tt)
  | [_] => ((t1, lg1), inr tt)
  | _ => ((t1, lg1), inl (MultipleObjectsReturned T_Merlin))
  end.

Fixpoint reconcile (inv : NautobotModel → nat) (ds : list Descriptor)
    (st : list Merlin * list OrmCall)
    : (list Merlin * list OrmCall) * (exn + unit) :=
  match ds with
  | [] => (st, inr tt)
  | d :: ds' =>
      match reconcile_step inv d st with
      | (st', inr _) => reconcile inv ds' st'
      | r => r
      end
  end.

Definition with_table (st : list Merlin * list OrmCall) (w : World) : World :=
  set_orm_log (λ _, st.2) (set_merlins (λ _, st.1) w).

(** The ORM calls of a run of [check_data] that creates nothing. *)
Definition reconcile_log (inv : NautobotModel → nat) : list OrmCall :=
  WelcomeWizardDashboard.descriptors ≫= turn_log inv.

(** Two rows that differ at most in [completed]. *)
Definition same_but_completed (a b : Merlin) : Prop :=
  b = with_completed (completed b) a.

(** ** Sample data *)

Definition alice : User := {| username := "alice" |}.

Definition cisco : ImportCandidate :=
  {| pk := "A"; name := "Cisco"; filename := "" |}.
Definition juniper : ImportCandidate :=
  {| pk := "B"; name := "Juniper"; filename := "" |}.
Definition mx480 : ImportCandidate :=
  {| pk := "D"; name := "MX480"; filename := "Juniper/MX480.yaml" |}.

(** A freshly installed plugin: both jobs registered, two manufacturers
    and one device type discovered, nothing reconciled yet. *)
Definition w0 : World :=
  {| plugin_config := {[ "enable_devicetype-library" := true ]};
     nautobot_objects := λ m, match m with Manufacturer => 2 | _ => 0 end;
     import_objects := λ m, match m with
                            | ManufacturerImport => [cisco; juniper]
                            | DeviceTypeImport => [mx480]
                            end;
     merlins := [];
     git_repositories := [];
     jobs := [ {| job_name := "Welcome Wizard - Import Manufacturer" |};
               {| job_name := "Welcome Wizard - Import Device Type" |} ];
     job_queue := []; git_sync_queue := []; flash_messages := [];
     orm_log := [] |}.

(** The same installation before the first sync: no import rows. *)
Definition w_empty : World :=
  {| plugin_config := plugin_config w0;
     nautobot_objects := nautobot_objects w0;
     import_objects := λ _, [];
     merlins := []; git_repositories := []; jobs := jobs w0;
     job_queue := []; git_sync_queue := []; flash_messages := [];
     orm_log := [] |}.

Definition post_request (pks : list string) : HttpRequest :=
  {| method := HTTP_POST; GET := []; POST := (λ k, ("pk", k)) <$> pks;
     user := alice |}.

Definition get_request (pks : list string) : HttpRequest :=
  {| method := HTTP_GET; GET := (λ k, ("pk", k)) <$> pks; POST := [];
     user := alice |}.

Definition allow_all : User → string → bool := λ _ _, true.
Definition deny_all : User → string → bool := λ _ _, false.
Definition accept_all : FormClass → World → QueryDict → bool := λ _ _ _, true.
Definition reject_all : FormClass → World → QueryDict → bool := λ _ _ _, false.

(** The sample installation after its first dashboard load. *)
Definition w_reconciled : World := (WelcomeWizardDashboard.check_data w0).1.

(** ** Further sample data *)

(** A repository of the slug that an administrator stored by hand. *)
Definition stored_library : GitRepository :=
  {| repo_name := "Device types (mirror)";
     slug := "devicetype_library";
     remote_url := "https://git.example.org/devicetype-library.git";
     provided_contents := ["welcome_wizard.import_wizard"];
     branch := "main" |}.

Definition with_repositories (l : list GitRepository) (w : World) : World :=
  set_git_repositories (λ _, l) w.

Definition with_plugin_config (c : gmap string bool) (w : World) : World :=
  {| plugin_config := c; nautobot_objects := nautobot_objects w;
     import_objects := import_objects w; merlins := merlins w;
     git_repositories := git_repositories w; jobs := jobs w;
     job_queue := job_queue w; git_sync_queue := git_sync_queue w;
     flash_messages := flash_messages w; orm_log := orm_log w |}.


(** A dashboard row of a name [check_data] does not track, flagged by
    its user. *)
Definition custom_row : Merlin :=
  {| merlin_name := "Tenants"; completed := false; ignored := true;
     nautobot_model := Location; nautobot_add_link := "tenancy:tenant_add";
     merlin_link := ""; nautobot_list_link := "tenancy:tenant_list" |}.

(** A stale row of a tracked name: marked complete and ignored, while the
    sample inventory has no location. *)
Definition stale_row : Merlin :=
  {| merlin_name := "Locations"; completed := true; ignored := true;
     nautobot_model := Location; nautobot_add_link := "dcim:location_add";
     merlin_link := ""; nautobot_list_link := "dcim:location_list" |}.

(** The sample installation with a hand-made dashboard: a row of an
    untracked name and a stale row of a tracked one. *)
Definition w_custom : World := set_merlins (λ _, [custom_row; stale_row]) w0.

(** A dashboard table in which a tracked name has two rows. *)
Definition w_duplicate : World :=
  set_merlins (λ _, [stale_row; custom_row; stale_row]) w0.


(** * Properties *)

(** ** The monad *)

Lemma bind_run {A B} (m : Eff A) (k : A → Eff B) w :
  bind m k w = match m w with
               | (w', inr a) => k a w'
               | (w', inl e) => (w', inl e)
               end.
Proof. reflexivity. Qed.

Lemma for_each_app {A S} (xs ys : list A) (body : S → A → Eff S) acc w :
  for_each (xs ++ ys) body acc w =
  bind (for_each xs body acc) (for_each ys body) w.
Proof.
  revert acc w. induction xs as [|x xs IH]; intros acc w; simpl.
  - reflexivity.
  - rewrite !bind_run. destruct (body acc x w) as [w' [e|acc']]; [done|].
    rewrite IH. reflexivity.
Qed.

Ltac eff_unfold :=
  unfold bind, ret, gets, modify, raise, log_call, try_except.

Ltac setters_unfold :=
  unfold set_merlins, set_git_repositories, set_job_queue,
    set_git_sync_queue, set_flash_messages, set_orm_log.

(** ** The permission string *)

Lemma add_permission_manufacturer :
  add_permission ManufacturerBulkImportView = "dcim.add_manufacturer".
Proof. reflexivity. Qed.

Lemma add_permission_devicetype :
  add_permission DeviceTypeBulkImportView = "dcim.add_devicetype".
Proof. reflexivity. Qed.

(** ** Rows and submitted identifiers *)

Lemma NoDup_omap_inj {A B} (f : A → option B) (l : list A) :
  (∀ x y z, f x = Some z → f y = Some z → x = y) →
  NoDup l → NoDup (omap f l).
Proof.
  intros Hinj. induction 1 as [|x l Hx Hl IH]; simpl.
  - constructor.
  - destruct (f x) as [z|] eqn:Hfx; [|exact IH].
    constructor; [|exact IH].
    rewrite list_elem_of_omap. intros (y & Hy & Hfy).
    apply Hx. by rewrite (Hinj x y z).
Qed.

Lemma record_of_Some rows key r :
  record_of rows key = Some r → r ∈ rows ∧ pk r = key.
Proof.
  unfold record_of. intros H%head_Some_elem_of.
  apply list_elem_of_filter in H. tauto.
Qed.

Lemma record_of_unique rows r :
  NoDup (pk <$> rows) → r ∈ rows → record_of rows (pk r) = Some r.
Proof.
  intros Hnd Hr. unfold record_of.
  destruct (filter (λ r', pk r' = pk r) rows) as [|r' l] eqn:Hf.
  - by pose proof (filter_nil_not_elem_of _ _ r Hf eq_refl).
  - simpl. f_equal.
    assert (Hr' : r' ∈ filter (λ r', pk r' = pk r) rows)
      by (rewrite Hf; left).
    apply list_elem_of_filter in Hr' as [Hpk Hin].
    clear Hf. induction rows as [|x rows IH]; [by apply elem_of_nil in Hr|].
    rewrite fmap_cons in Hnd. apply NoDup_cons in Hnd as [Hx Hnd].
    apply elem_of_cons in Hr as [->|Hr], Hin as [->|Hin]; auto.
    + exfalso. apply Hx. rewrite <- Hpk. by apply list_elem_of_fmap_2.
    + exfalso. apply Hx. rewrite Hpk. by apply list_elem_of_fmap_2.
Qed.

(** With unique primary keys, the rows [filter(pk__in=pks)] yields are,
    up to order, the rows of the distinct identifiers that have one. *)
Lemma filter_pk_in_perm (rows : list ImportCandidate) (pks : list string) :
  NoDup (pk <$> rows) →
  filter (λ r, pk r ∈ pks) rows ≡ₚ omap (record_of rows) (remove_dups pks).
Proof.
  intros Hnd. apply NoDup_Permutation.
  - apply NoDup_filter. by eapply NoDup_fmap_1.
  - apply NoDup_omap_inj; [|apply NoDup_remove_dups].
    intros x y z [_ Hx]%record_of_Some [_ Hy]%record_of_Some. congruence.
  - intros r. rewrite list_elem_of_filter, list_elem_of_omap. split.
    + intros [Hpk Hr]. exists (pk r).
      split; [by apply elem_of_remove_dups | by apply record_of_unique].
    + intros (key & Hkey & [Hr <-]%record_of_Some).
      split; [by apply elem_of_remove_dups | done].
Qed.

(** ** [BulkImportView.post] *)

Section Post.

Variable has_perms : User → string → bool.
Variable is_valid : FormClass → World → QueryDict → bool.

(** [dispatch] runs the handler of the method on the view with its
    permission action set to ["add"]. *)
Lemma dispatch_post (self : BulkImportView.attrs) (request : HttpRequest) w :
  method request = HTTP_POST →
  BulkImportView.dispatch has_perms is_valid self request w
  = BulkImportView.post has_perms is_valid
      (BulkImportView.set_permission_action (Some "add") self) request w.
Proof. intros Hm. unfold BulkImportView.dispatch. rewrite Hm. reflexivity. Qed.

Lemma dispatch_get (self : BulkImportView.attrs) (request : HttpRequest) w :
  method request = HTTP_GET →
  BulkImportView.dispatch has_perms is_valid self request w
  = BulkImportView.get
      (BulkImportView.set_permission_action (Some "add") self) request w.
Proof. intros Hm. unfold BulkImportView.dispatch. rewrite Hm. reflexivity. Qed.

(** C4: a POST by a user without the add-permission is answered with
    [HttpResponseForbidden] and leaves the world exactly as it was: no job
    is enqueued, no message is emitted, no ORM call is made, and the
    response is not a redirect; the form's validity plays no part. *)
Theorem post_without_permission_is_forbidden
    (self : BulkImportView.attrs) (request : HttpRequest) (w : World) :
  method request = HTTP_POST →
  has_perms (user request) (add_permission self) = false →
  BulkImportView.dispatch has_perms is_valid self request w
  = (w, inr HttpResponseForbidden).
Proof.
  intros Hm Hp. rewrite dispatch_post by done.
  unfold BulkImportView.post, BulkImportView.has_permission.
  change (BulkImportView.get_required_permission _) with (add_permission self).
  rewrite Hp. reflexivity.
Qed.

(** C7: a permitted POST whose form does not validate only redirects to
    the return location; the world is exactly as before, so no job was
    enqueued and no message of any kind was emitted. *)
Theorem post_invalid_form_only_redirects
    (self : BulkImportView.attrs) (request : HttpRequest) (w : World) :
  method request = HTTP_POST →
  has_perms (user request) (add_permission self) = true →
  is_valid (BulkImportView.form self) w (POST request) = false →
  BulkImportView.dispatch has_perms is_valid self request w
  = (w, inr (HttpResponseRedirect (BulkImportView.return_url self))).
Proof.
  intros Hm Hp Hv. rewrite dispatch_post by done.
  unfold BulkImportView.post, BulkImportView.has_permission.
  change (BulkImportView.get_required_permission _) with (add_permission self).
  rewrite Hp. cbn [negb]. rewrite bind_run. unfold gets at 1.
  cbn [BulkImportView.form BulkImportView.set_permission_action].
  rewrite Hv. reflexivity.
Qed.

(** C8: a GET without a [pk] parameter redirects to the return location
    at once: nothing is rendered, and the world, ORM log included, is
    untouched, so no record was looked up. *)
Theorem get_without_selection_redirects
    (self : BulkImportView.attrs) (request : HttpRequest) (w : World) :
  method request = HTTP_GET →
  getlist "pk" (GET request) = [] →
  BulkImportView.dispatch has_perms is_valid self request w
  = (w, inr (HttpResponseRedirect (BulkImportView.return_url self))).
Proof.
  intros Hm Hsel. rewrite dispatch_get by done.
  unfold BulkImportView.get, QueryDict_get. rewrite Hsel. reflexivity.
Qed.

(** One turn of the loop of [post], when the view's job is registered
    once: one job lookup, one enqueue. *)
Lemma post_body_run (self : BulkImportView.attrs) (request : HttpRequest)
    (job : Job) (obj : ImportCandidate) (acc : list string) (w : World) :
  filter (λ j, job_name j = import_job_name (BulkImportView.model self))
         (jobs w) = [job] →
  BulkImportView.post_body self request acc obj w
  = (set_job_queue (λ q, q ++
       [{| job_model := job; job_user := user request;
           job_kwargs := import_job_kwargs (BulkImportView.model self) obj |}])
      (set_orm_log (λ l, l ++
         [OrmGet T_Job "name"
            (import_job_name (BulkImportView.model self))]) w),
     inr (acc ++ [name obj])).
Proof.
  intros Hjob.
  unfold BulkImportView.post_body, job_get, objects_get, enqueue_job.
  destruct (BulkImportView.model self); simpl in *;
    eff_unfold; simpl; rewrite Hjob; reflexivity.
Qed.

(** The whole loop: one lookup and one enqueue per row, in order. *)
Lemma post_loop (self : BulkImportView.attrs) (request : HttpRequest)
    (job : Job) (objs : list ImportCandidate) (acc : list string) (w : World) :
  filter (λ j, job_name j = import_job_name (BulkImportView.model self))
         (jobs w) = [job] →
  for_each objs (BulkImportView.post_body self request) acc w
  = (set_job_queue (λ q, q ++
       ((λ obj, {| job_model := job; job_user := user request;
                   job_kwargs := import_job_kwargs
                                   (BulkImportView.model self) obj |})
        <$> objs))
      (set_orm_log (λ l, l ++
         replicate (length objs)
           (OrmGet T_Job "name"
              (import_job_name (BulkImportView.model self)))) w),
     inr (acc ++ (name <$> objs))).
Proof.
  revert acc w. induction objs as [|obj objs IH]; intros acc w Hjob.
  - destruct w; setters_unfold; simpl. unfold ret. rewrite !app_nil_r.
    reflexivity.
  - simpl. rewrite bind_run, (post_body_run _ _ job) by done.
    rewrite IH by (destruct w; exact Hjob).
    destruct w; setters_unfold; simpl. rewrite <- !app_assoc. reflexivity.
Qed.

(** A permitted, valid [post], job registered: the whole run. *)
Lemma post_run (self : BulkImportView.attrs) (request : HttpRequest)
    (job : Job) (w : World) :
  has_perms (user request) (BulkImportView.get_required_permission self)
  = true →
  is_valid (BulkImportView.form self) w (POST request) = true →
  filter (λ j, job_name j = import_job_name (BulkImportView.model self))
         (jobs w) = [job] →
  BulkImportView.post has_perms is_valid self request w
  = (set_flash_messages (λ l, l ++
       ["Onboarded " +:+ pretty (length (matched self request w))
        +:+ " objects."])
      (set_job_queue (λ q, q ++
         ((λ obj, {| job_model := job; job_user := user request;
                     job_kwargs := import_job_kwargs
                                     (BulkImportView.model self) obj |})
          <$> matched self request w))
        (set_orm_log (λ l, l ++
           OrmFilterIn (T_Import (BulkImportView.model self)) "pk"
             (getlist "pk" (POST request))
           :: replicate (length (matched self request w))
                (OrmGet T_Job "name"
                   (import_job_name (BulkImportView.model self)))) w)),
     inr (HttpResponseRedirect (BulkImportView.return_url self))).
Proof.
  intros Hp Hv Hjob.
  unfold BulkImportView.post, BulkImportView.has_permission.
  rewrite Hp. cbn [negb].
  unfold import_filter_pk_in, messages_success. eff_unfold. simpl.
  rewrite Hv. fold (matched self request w).
  rewrite (post_loop _ _ job) by (destruct w; exact Hjob).
  rewrite app_nil_l, length_fmap. destruct w; setters_unfold; simpl.
  rewrite <- app_assoc. reflexivity.
Qed.

(** The same run when no submitted identifier matches a row: the job
    table is not even consulted. *)
Lemma post_run_unmatched (self : BulkImportView.attrs) (request : HttpRequest)
    (w : World) :
  has_perms (user request) (BulkImportView.get_required_permission self)
  = true →
  is_valid (BulkImportView.form self) w (POST request) = true →
  matched self request w = [] →
  BulkImportView.post has_perms is_valid self request w
  = (set_flash_messages (λ l, l ++ ["Onboarded 0 objects."])
      (set_orm_log (λ l, l ++
         [OrmFilterIn (T_Import (BulkImportView.model self)) "pk"
            (getlist "pk" (POST request))]) w),
     inr (HttpResponseRedirect (BulkImportView.return_url self))).
Proof.
  intros Hp Hv Hnone.
  unfold BulkImportView.post, BulkImportView.has_permission.
  rewrite Hp. cbn [negb].
  unfold import_filter_pk_in, messages_success. eff_unfold. simpl.
  rewrite Hv. fold (matched self request w). rewrite Hnone. reflexivity.
Qed.

(** C5: a permitted, valid POST always emits "Onboarded n objects." with
    n the number of jobs it enqueued, and then redirects to the return
    location; when no submitted identifier matches a row (an empty list
    included) nothing is enqueued and the message reports 0. *)
Theorem post_reports_enqueue_count
    (self : BulkImportView.attrs) (request : HttpRequest) (w : World) :
  method request = HTTP_POST →
  has_perms (user request) (add_permission self) = true →
  is_valid (BulkImportView.form self) w (POST request) = true →
  (matched self request w = [] ∨
   ∃ job, filter (λ j, job_name j
                       = import_job_name (BulkImportView.model self))
                 (jobs w) = [job]) →
  ∃ w' enqueued,
    BulkImportView.dispatch has_perms is_valid self request w
    = (w', inr (HttpResponseRedirect (BulkImportView.return_url self))) ∧
    job_queue w' = job_queue w ++ enqueued ∧
    flash_messages w'
    = flash_messages w
      ++ ["Onboarded " +:+ pretty (length enqueued) +:+ " objects."] ∧
    (matched self request w = [] →
     enqueued = [] ∧
     flash_messages w' = flash_messages w ++ ["Onboarded 0 objects."]).
Proof.
  intros Hm Hp Hv [Hnone | [job Hjob]].
  - eexists _, []. rewrite dispatch_post by done.
    split; [by apply (post_run_unmatched
      (BulkImportView.set_permission_action (Some "add") self))|].
    destruct w; simpl. rewrite app_nil_r. auto.
  - eexists _, (enqueued_for self request job <$> matched self request w).
    rewrite dispatch_post by done.
    split; [by apply (post_run
      (BulkImportView.set_permission_action (Some "add") self) _ job)|].
    rewrite length_fmap. destruct w; simpl. split; [done|]. split; [done|].
    intros Hnone. unfold matched in Hnone. simpl in Hnone.
    unfold matched. simpl. rewrite Hnone. done.
Qed.

(** C1: a permitted, valid POST enqueues, for each row of the view's
    model whose primary key was submitted, one job: the job named for the
    model, run as the requesting user, with [manufacturer_name] the row's
    name for [ManufacturerImport] and [filename] the row's filename for
    [DeviceTypeImport].  Primary keys being unique, these are, up to
    order, one job for every distinct submitted identifier that has a row;
    identifiers without a row add nothing and raise nothing. *)
Theorem post_enqueues_one_job_per_match
    (self : BulkImportView.attrs) (request : HttpRequest) (w : World)
    (job : Job) :
  method request = HTTP_POST →
  has_perms (user request) (add_permission self) = true →
  is_valid (BulkImportView.form self) w (POST request) = true →
  filter (λ j, job_name j = import_job_name (BulkImportView.model self))
         (jobs w) = [job] →
  NoDup (pk <$> import_objects w (BulkImportView.model self)) →
  ∃ w',
    BulkImportView.dispatch has_perms is_valid self request w
    = (w', inr (HttpResponseRedirect (BulkImportView.return_url self))) ∧
    job_queue w'
    = job_queue w ++ (enqueued_for self request job <$> matched self request w) ∧
    enqueued_for self request job <$> matched self request w
    ≡ₚ omap (λ key, enqueued_for self request job
                    <$> record_of (import_objects w (BulkImportView.model self))
                                  key)
            (remove_dups (getlist "pk" (POST request))) ∧
    job_name job = import_job_name (BulkImportView.model self).
Proof.
  intros Hm Hp Hv Hjob Hnd. eexists. rewrite dispatch_post by done.
  split; [by apply (post_run
      (BulkImportView.set_permission_action (Some "add") self) _ job)|].
  split; [by destruct w|]. split.
  - rewrite <- list_fmap_omap. apply fmap_Permutation.
    by apply filter_pk_in_perm.
  - assert (Hin : job ∈ filter
      (λ j, job_name j = import_job_name (BulkImportView.model self)) (jobs w))
      by (rewrite Hjob; left).
    by apply list_elem_of_filter in Hin as [? _].
Qed.

End Post.

Lemma post_invalid_form_only_redirects_witness :
  method (post_request ["A"; "B"]) = HTTP_POST ∧
  allow_all alice (add_permission ManufacturerBulkImportView) = true ∧
  reject_all ManufacturerBulkImportForm w0 (POST (post_request ["A"; "B"]))
  = false ∧
  BulkImportView.dispatch allow_all reject_all ManufacturerBulkImportView
    (post_request ["A"; "B"]) w0
  = (w0, inr (HttpResponseRedirect "plugins:welcome_wizard:manufacturers")).
Proof.
  repeat (split; [reflexivity|]).
  apply (post_invalid_form_only_redirects allow_all reject_all
           ManufacturerBulkImportView); reflexivity.
Defined.

Lemma get_without_selection_redirects_witness :
  method (get_request []) = HTTP_GET ∧
  getlist "pk" (GET (get_request [])) = [] ∧
  BulkImportView.dispatch allow_all accept_all DeviceTypeBulkImportView
    (get_request []) w0
  = (w0, inr (HttpResponseRedirect "plugins:welcome_wizard:devicetypes")).
Proof.
  repeat (split; [reflexivity|]).
  apply (get_without_selection_redirects allow_all accept_all
           DeviceTypeBulkImportView); reflexivity.
Defined.

Lemma post_without_permission_is_forbidden_witness :
  method (post_request ["A"; "B"]) = HTTP_POST ∧
  deny_all alice (add_permission ManufacturerBulkImportView) = false ∧
  BulkImportView.dispatch deny_all accept_all ManufacturerBulkImportView
    (post_request ["A"; "B"]) w0 = (w0, inr HttpResponseForbidden).
Proof.
  split; [reflexivity|]. split; [reflexivity|].
  apply post_without_permission_is_forbidden; reflexivity.
Defined.

Lemma post_reports_enqueue_count_witness :
  method (post_request ["B"; "Z"; "A"]) = HTTP_POST ∧
  allow_all alice (add_permission ManufacturerBulkImportView) = true ∧
  accept_all ManufacturerBulkImportForm w0
    (POST (post_request ["B"; "Z"; "A"])) = true ∧
  (∃ job, filter (λ j, job_name j = import_job_name ManufacturerImport)
                 (jobs w0) = [job]) ∧
  ∃ w' enqueued,
    BulkImportView.dispatch allow_all accept_all ManufacturerBulkImportView
      (post_request ["B"; "Z"; "A"]) w0
    = (w', inr (HttpResponseRedirect "plugins:welcome_wizard:manufacturers")) ∧
    job_queue w' = job_queue w0 ++ enqueued ∧
    flash_messages w'
    = flash_messages w0
      ++ ["Onboarded " +:+ pretty (length enqueued) +:+ " objects."] ∧
    (matched ManufacturerBulkImportView (post_request ["B"; "Z"; "A"]) w0 = [] →
     enqueued = [] ∧
     flash_messages w' = flash_messages w0 ++ ["Onboarded 0 objects."]).
Proof.
  repeat (split; [reflexivity|]).
  split; [by eexists|].
  apply (post_reports_enqueue_count allow_all accept_all
           ManufacturerBulkImportView); try reflexivity.
  right. by eexists.
Defined.

Lemma post_enqueues_one_job_per_match_witness :
  method (post_request ["B"; "Z"; "A"]) = HTTP_POST ∧
  allow_all alice (add_permission ManufacturerBulkImportView) = true ∧
  accept_all ManufacturerBulkImportForm w0
    (POST (post_request ["B"; "Z"; "A"])) = true ∧
  filter (λ j, job_name j = import_job_name ManufacturerImport) (jobs w0)
  = [ {| job_name := "Welcome Wizard - Import Manufacturer" |} ] ∧
  NoDup (pk <$> import_objects w0 ManufacturerImport) ∧
  ∃ w',
    BulkImportView.dispatch allow_all accept_all ManufacturerBulkImportView
      (post_request ["B"; "Z"; "A"]) w0
    = (w', inr (HttpResponseRedirect "plugins:welcome_wizard:manufacturers")) ∧
    job_queue w'
    = job_queue w0
      ++ (enqueued_for ManufacturerBulkImportView (post_request ["B"; "Z"; "A"])
            {| job_name := "Welcome Wizard - Import Manufacturer" |}
          <$> matched ManufacturerBulkImportView
                (post_request ["B"; "Z"; "A"]) w0) ∧
    enqueued_for ManufacturerBulkImportView (post_request ["B"; "Z"; "A"])
      {| job_name := "Welcome Wizard - Import Manufacturer" |}
    <$> matched ManufacturerBulkImportView (post_request ["B"; "Z"; "A"]) w0
    ≡ₚ omap (λ key,
               enqueued_for ManufacturerBulkImportView
                 (post_request ["B"; "Z"; "A"])
                 {| job_name := "Welcome Wizard - Import Manufacturer" |}
               <$> record_of (import_objects w0 ManufacturerImport) key)
            (remove_dups (getlist "pk" (POST (post_request ["B"; "Z"; "A"])))) ∧
    job_name {| job_name := "Welcome Wizard - Import Manufacturer" |}
    = import_job_name ManufacturerImport.
Proof.
  repeat (split; [reflexivity|]).
  assert (Hnd : NoDup (pk <$> import_objects w0 ManufacturerImport))
    by compute_done.
  split; [exact Hnd|].
  apply (post_enqueues_one_job_per_match allow_all accept_all
           ManufacturerBulkImportView); try reflexivity.
  exact Hnd.
Defined.

(** The two manufacturers of the example: identifiers [A] and [B] give
    exactly the jobs for "Cisco" and "Juniper"; the unknown [Z] and the
    repeated [A] add nothing. *)
Example post_cisco_juniper :
  let r := BulkImportView.dispatch allow_all accept_all
             ManufacturerBulkImportView (post_request ["A"; "B"; "Z"; "A"]) w0 in
  job_queue r.1
  = [ {| job_model := {| job_name := "Welcome Wizard - Import Manufacturer" |};
         job_user := alice;
         job_kwargs := [("manufacturer_name", "Cisco")] |};
      {| job_model := {| job_name := "Welcome Wizard - Import Manufacturer" |};
         job_user := alice;
         job_kwargs := [("manufacturer_name", "Juniper")] |} ]
  ∧ flash_messages r.1 = ["Onboarded 2 objects."]
  ∧ r.2 = inr (HttpResponseRedirect "plugins:welcome_wizard:manufacturers").
Proof. vm_compute. done. Qed.

Example post_mx480 :
  let r := BulkImportView.dispatch allow_all accept_all
             DeviceTypeBulkImportView (post_request ["D"]) w0 in
  job_queue r.1
  = [ {| job_model := {| job_name := "Welcome Wizard - Import Device Type" |};
         job_user := alice;
         job_kwargs := [("filename", "Juniper/MX480.yaml")] |} ]
  ∧ flash_messages r.1 = ["Onboarded 1 objects."].
Proof. vm_compute. done. Qed.

(** ** [check_sync] and the list views *)

(** Every way [check_sync] can run. *)
Lemma check_sync_run (instance : ListView) (request : HttpRequest) (w : World) :
  check_sync instance request w
  = if sync_due instance w then
      match library_rows w with
      | [] =>
          (set_git_sync_queue (λ q, q ++ [(devicetype_library, user request)])
             (set_git_repositories (λ l, l ++ [devicetype_library])
                (set_orm_log (λ l, l ++
                   [OrmExists (T_Import (lv_queryset instance));
                    OrmGet T_GitRepository "slug" "devicetype_library";
                    OrmInsert T_GitRepository]) w)),
           inr tt)
      | [repo] =>
          (set_git_sync_queue (λ q, q ++ [(repo, user request)])
             (set_orm_log (λ l, l ++
                [OrmExists (T_Import (lv_queryset instance));
                 OrmGet T_GitRepository "slug" "devicetype_library"]) w),
           inr tt)
      | _ =>
          (set_orm_log (λ l, l ++
             [OrmExists (T_Import (lv_queryset instance));
              OrmGet T_GitRepository "slug" "devicetype_library"]) w,
           inl (MultipleObjectsReturned T_GitRepository))
      end
    else if bool_decide (plugin_config w !! "enable_devicetype-library"
                         = Some true)
    then (set_orm_log (λ l, l ++
            [OrmExists (T_Import (lv_queryset instance))]) w, inr tt)
    else (w, inr tt).
Proof.
  unfold check_sync, sync_due, library_rows, import_exists,
    git_repository_get, git_repository_save, objects_get,
    enqueue_pull_git_repository_and_refresh_data.
  eff_unfold. destruct w as [cfg inv imp mer repos jbs jq sq msgs lg]; simpl.
  destruct (cfg !! "enable_devicetype-library") as [[|]|] eqn:Hflag;
    simpl; try reflexivity.
  destruct (imp (lv_queryset instance)) as [|row rows] eqn:Himp; simpl.
  - destruct (filter _ repos) as [|repo [|repo' more]]; simpl.
    + setters_unfold; simpl. rewrite <- !app_assoc. reflexivity.
    + setters_unfold; simpl. rewrite <- !app_assoc. reflexivity.
    + setters_unfold; simpl. rewrite <- !app_assoc. reflexivity.
  - reflexivity.
Qed.

Lemma filter_nil_iff {A} (P : A → Prop) `{!∀ x, Decision (P x)} (l : list A) :
  filter P l = [] ↔ ∀ x, x ∈ l → ¬ P x.
Proof.
  split.
  - intros Hnil x Hx HP. by eapply filter_nil_not_elem_of.
  - intros Hall. destruct (filter P l) as [|x l'] eqn:Hf; [done|].
    assert (Hx : x ∈ filter P l) by (rewrite Hf; left).
    apply list_elem_of_filter in Hx as [HP Hx]. by destruct (Hall x Hx).
Qed.

(** C10: when the flag is set, the view's table is empty and no
    repository has the slug [devicetype_library], [check_sync] first
    stores a repository with the fixed name, slug, remote URL, branch and
    provided contents, and then enqueues a sync of that repository for the
    requesting user: the repository table has grown by that row. *)
Theorem check_sync_creates_repository
    (instance : ListView) (request : HttpRequest) (w : World) :
  plugin_config w !! "enable_devicetype-library" = Some true →
  import_objects w (lv_queryset instance) = [] →
  (∀ r, r ∈ git_repositories w → slug r ≠ "devicetype_library") →
  let repo :=
    {| repo_name := "Devicetype-library";
       slug := "devicetype_library";
       remote_url :=
         "https://github.com/netbox-community/devicetype-library.git";
       provided_contents := ["welcome_wizard.import_wizard"];
       branch := "master" |} in
  ∃ w',
    check_sync instance request w = (w', inr tt) ∧
    git_repositories w' = git_repositories w ++ [repo] ∧
    git_sync_queue w' = git_sync_queue w ++ [(repo, user request)] ∧
    orm_log w'
    = orm_log w ++ [OrmExists (T_Import (lv_queryset instance));
                    OrmGet T_GitRepository "slug" "devicetype_library";
                    OrmInsert T_GitRepository].
Proof.
  intros Hflag Hempty Hnone repo. rewrite check_sync_run.
  unfold sync_due. rewrite Hflag, Hempty.
  rewrite !bool_decide_eq_true_2 by done. simpl.
  assert (Hrows : library_rows w = [])
    by (apply filter_nil_iff; intros r Hr; by apply Hnone).
  rewrite Hrows. eexists. split; [reflexivity|].
  by destruct w.
Qed.

Lemma check_sync_creates_repository_witness :
  plugin_config w_empty !! "enable_devicetype-library" = Some true ∧
  import_objects w_empty (lv_queryset DeviceTypeListView.self) = [] ∧
  (∀ r, r ∈ git_repositories w_empty → slug r ≠ "devicetype_library") ∧
  ∃ w',
    check_sync DeviceTypeListView.self (get_request []) w_empty
    = (w', inr tt) ∧
    git_repositories w' = git_repositories w_empty ++ [devicetype_library] ∧
    git_sync_queue w'
    = git_sync_queue w_empty ++ [(devicetype_library, alice)] ∧
    orm_log w'
    = orm_log w_empty ++ [OrmExists (T_Import DeviceTypeImport);
                          OrmGet T_GitRepository "slug" "devicetype_library";
                          OrmInsert T_GitRepository].
Proof.
  assert (Hnone : ∀ r, r ∈ git_repositories w_empty →
                       slug r ≠ "devicetype_library")
    by (intros r Hr; by apply elem_of_nil in Hr).
  repeat (split; [reflexivity|]). split; [exact Hnone|].
  apply (check_sync_creates_repository DeviceTypeListView.self
           (get_request []) w_empty); [reflexivity | reflexivity | exact Hnone].
Defined.

(** A list view's [get], for either view: it renders, and the sync queue
    grows by one entry exactly when a sync was due.  What made the sync
    due is not changed by the render. *)
Lemma list_view_get_run (self : ListView) (request : HttpRequest) (w : World) :
  length (library_rows w) ≤ 1 →
  ∃ w',
    renders_with_sync self
      (λ r, check_sync self r ;; ObjectListView_get self r) request w w' ∧
    sync_due self w' = sync_due self w ∧
    length (library_rows w') ≤ 1.
Proof.
  intros Hslug. unfold renders_with_sync, bind. rewrite check_sync_run.
  unfold library_repo.
  destruct (sync_due self w) eqn:Hdue.
  - destruct (library_rows w) as [|repo [|repo' more]] eqn:Hrows;
      [| |simpl in Hslug; lia].
    + eexists. split; [eexists; split; [reflexivity|by destruct w]|].
      split; [by destruct w|].
      destruct w; unfold library_rows in *; simpl in *.
      rewrite filter_app, Hrows. simpl. done.
    + eexists. split; [eexists; split; [reflexivity|by destruct w]|].
      split; [by destruct w|].
      destruct w; unfold library_rows in *; simpl in *. by rewrite Hrows.
  - case_bool_decide.
    + eexists. split; [eexists; split; [reflexivity|]|].
      * destruct w; simpl. by rewrite app_nil_r.
      * split; [by destruct w|]. by destruct w.
    + eexists. split; [eexists; split; [reflexivity|]|].
      * destruct w; simpl. by rewrite app_nil_r.
      * split; [by destruct w|]. by destruct w.
Qed.

(** C9: a render of either wizard list view enqueues exactly one sync
    when the flag is set and the view's table is empty, and none
    otherwise; a second render finds the same condition and, the table
    still empty, enqueues again: nothing guards against it. *)
Theorem list_view_syncs_iff_flag_and_empty
    (request request2 : HttpRequest) (w : World) :
  length (library_rows w) ≤ 1 →
  (∃ w' w'',
     renders_with_sync ManufacturerListView.self ManufacturerListView.get
       request w w' ∧
     renders_with_sync ManufacturerListView.self ManufacturerListView.get
       request2 w' w'' ∧
     sync_due ManufacturerListView.self w'
     = sync_due ManufacturerListView.self w) ∧
  (∃ w' w'',
     renders_with_sync DeviceTypeListView.self DeviceTypeListView.get
       request w w' ∧
     renders_with_sync DeviceTypeListView.self DeviceTypeListView.get
       request2 w' w'' ∧
     sync_due DeviceTypeListView.self w'
     = sync_due DeviceTypeListView.self w).
Proof.
  intros Hslug. split.
  - destruct (list_view_get_run ManufacturerListView.self request w Hslug)
      as (w' & Hr1 & Hdue & Hslug').
    destruct (list_view_get_run ManufacturerListView.self request2 w' Hslug')
      as (w'' & Hr2 & _ & _).
    by exists w', w''.
  - destruct (list_view_get_run DeviceTypeListView.self request w Hslug)
      as (w' & Hr1 & Hdue & Hslug').
    destruct (list_view_get_run DeviceTypeListView.self request2 w' Hslug')
      as (w'' & Hr2 & _ & _).
    by exists w', w''.
Qed.

Lemma list_view_syncs_iff_flag_and_empty_witness :
  length (library_rows w_empty) ≤ 1 ∧
  (∃ w' w'',
     renders_with_sync ManufacturerListView.self ManufacturerListView.get
       (get_request []) w_empty w' ∧
     renders_with_sync ManufacturerListView.self ManufacturerListView.get
       (get_request []) w' w'' ∧
     sync_due ManufacturerListView.self w'
     = sync_due ManufacturerListView.self w_empty) ∧
  (∃ w' w'',
     renders_with_sync DeviceTypeListView.self DeviceTypeListView.get
       (get_request []) w_empty w' ∧
     renders_with_sync DeviceTypeListView.self DeviceTypeListView.get
       (get_request []) w' w'' ∧
     sync_due DeviceTypeListView.self w'
     = sync_due DeviceTypeListView.self w_empty).
Proof.
  assert (Hslug : length (library_rows w_empty) ≤ 1) by (simpl; lia).
  split; [exact Hslug|].
  exact (list_view_syncs_iff_flag_and_empty
           (get_request []) (get_request []) w_empty Hslug).
Defined.

(** Two renders of the manufacturer list on an empty table: two syncs of
    the repository the first render created.  On a table with rows: none. *)
Example list_view_renders_twice :
  let w1 := (ManufacturerListView.get (get_request []) w_empty).1 in
  let w2 := (ManufacturerListView.get (get_request []) w1).1 in
  git_sync_queue w1 = [(devicetype_library, alice)] ∧
  git_sync_queue w2 = [(devicetype_library, alice); (devicetype_library, alice)] ∧
  git_repositories w2 = [devicetype_library] ∧
  git_sync_queue (ManufacturerListView.get (get_request []) w0).1 = [].
Proof. vm_compute. done. Qed.

(** ** [BulkImportView.get] *)

(** [get] on a selection: the record of the last [pk] value is looked up,
    once, and the form is bound to that one identifier. *)
Lemma get_run (self : BulkImportView.attrs) (request : HttpRequest)
    (w : World) (key : string) (obj : ImportCandidate) :
  last (getlist "pk" (GET request)) = Some key →
  key ≠ "" →
  filter (λ r, pk r = key) (import_objects w (BulkImportView.model self))
  = [obj] →
  BulkImportView.get self request w
  = (set_orm_log (λ l, l ++
       [OrmGet (T_Import (BulkImportView.model self)) "pk" key]) w,
     inr (Rendered "welcome_wizard/import.html"
            (ImportPage
               {| ctx_form := (BulkImportView.form self, [("pk", [key])]);
                  ctx_obj := obj;
                  ctx_return_url := BulkImportView.return_url self;
                  ctx_bulk_import_url := BulkImportView.bulk_import_url self;
                  ctx_breadcrumb_name := BulkImportView.breadcrumb_name self
               |}))).
Proof.
  intros Hlast Hkey Hrow.
  unfold BulkImportView.get, QueryDict_get, QueryDict_getitem, objects_get.
  rewrite Hlast. unfold truthy. rewrite bool_decide_eq_true_2 by done.
  eff_unfold. simpl. rewrite Hrow. reflexivity.
Qed.

(** The guard on [get("pk")] makes the subscript safe: [get] never raises
    [MultiValueDictKeyError]. *)
Lemma get_no_key_error (self : BulkImportView.attrs) (request : HttpRequest)
    (w : World) (key : string) :
  (BulkImportView.get self request w).2 ≠ inl (MultiValueDictKeyError key).
Proof.
  unfold BulkImportView.get, QueryDict_get, QueryDict_getitem, objects_get.
  destruct (last (getlist "pk" (GET request))) as [v|]; simpl; [|done].
  case_bool_decide; simpl; [|done].
  eff_unfold. simpl.
  by destruct (filter _ _) as [|row [|row' more]].
Qed.

(** An identifier without a record: the lookup's [DoesNotExist] reaches
    the caller. *)
Example get_not_found :
  (BulkImportView.dispatch allow_all accept_all ManufacturerBulkImportView
     (get_request ["Z"]) w0).2
  = inl (DoesNotExist (T_Import ManufacturerImport)).
Proof. vm_compute. done. Qed.

(** C6, as amended: on a selection whose last identifier is not empty and
    has exactly one record, [get] looks up that one record, the record of
    the LAST identifier, as the preview object, and renders the
    confirmation form bound to that one identifier only.  For a selection
    of a single identifier this is the selection itself. *)
Theorem get_previews_last_identifier
    (has_perms : User → string → bool)
    (is_valid : FormClass → World → QueryDict → bool)
    (self : BulkImportView.attrs) (request : HttpRequest)
    (w : World) (key : string) (obj : ImportCandidate) :
  method request = HTTP_GET →
  last (getlist "pk" (GET request)) = Some key →
  key ≠ "" →
  filter (λ r, pk r = key) (import_objects w (BulkImportView.model self))
  = [obj] →
  BulkImportView.dispatch has_perms is_valid self request w
  = (set_orm_log (λ l, l ++
       [OrmGet (T_Import (BulkImportView.model self)) "pk" key]) w,
     inr (Rendered "welcome_wizard/import.html"
            (ImportPage
               {| ctx_form := (BulkImportView.form self, [("pk", [key])]);
                  ctx_obj := obj;
                  ctx_return_url := BulkImportView.return_url self;
                  ctx_bulk_import_url := BulkImportView.bulk_import_url self;
                  ctx_breadcrumb_name := BulkImportView.breadcrumb_name self
               |}))).
Proof.
  intros Hm Hlast Hkey Hrow. rewrite dispatch_get by done.
  by apply (get_run (BulkImportView.set_permission_action (Some "add") self)).
Qed.

Lemma get_previews_last_identifier_witness :
  method (get_request ["A"; "B"]) = HTTP_GET ∧
  last (getlist "pk" (GET (get_request ["A"; "B"]))) = Some "B" ∧
  "B" ≠ "" ∧
  filter (λ r, pk r = "B") (import_objects w0 ManufacturerImport) = [juniper] ∧
  BulkImportView.dispatch allow_all accept_all ManufacturerBulkImportView
    (get_request ["A"; "B"]) w0
  = (set_orm_log (λ l, l ++ [OrmGet (T_Import ManufacturerImport) "pk" "B"]) w0,
     inr (Rendered "welcome_wizard/import.html"
            (ImportPage
               {| ctx_form := (ManufacturerBulkImportForm, [("pk", ["B"])]);
                  ctx_obj := juniper;
                  ctx_return_url := "plugins:welcome_wizard:manufacturers";
                  ctx_bulk_import_url :=
                    "plugins:welcome_wizard:manufacturer_import";
                  ctx_breadcrumb_name := "Import Manufacturers" |}))).
Proof.
  assert (Hkey : "B" ≠ "") by discriminate.
  split; [reflexivity|]. split; [reflexivity|]. split; [exact Hkey|].
  split; [reflexivity|].
  apply (get_previews_last_identifier allow_all accept_all
           ManufacturerBulkImportView (get_request ["A"; "B"]) w0 "B" juniper);
    [reflexivity | reflexivity | exact Hkey | reflexivity].
Defined.

(** C6 with "first identifier" and "full list" fails on a selection of
    two identifiers: the preview object is not the record of the first
    identifier, and the form is not bound to the whole selection. *)
Lemma get_previews_first_counterexample :
  ¬ (∀ (self : BulkImportView.attrs) (request : HttpRequest) (w w' : World)
       (first : string) (rest : list string) (tpl : string)
       (ctx : ImportContext),
       method request = HTTP_GET →
       getlist "pk" (GET request) = first :: rest →
       BulkImportView.dispatch allow_all accept_all self request w
       = (w', inr (Rendered tpl (ImportPage ctx))) →
       record_of (import_objects w (BulkImportView.model self)) first
       = Some (ctx_obj ctx))
  ∧
  ¬ (∀ (self : BulkImportView.attrs) (request : HttpRequest) (w w' : World)
       (first : string) (rest : list string) (tpl : string)
       (ctx : ImportContext),
       method request = HTTP_GET →
       getlist "pk" (GET request) = first :: rest →
       BulkImportView.dispatch allow_all accept_all self request w
       = (w', inr (Rendered tpl (ImportPage ctx))) →
       ctx_form ctx = (BulkImportView.form self, [("pk", first :: rest)])).
Proof.
  split; intros Hclaim.
  - specialize (Hclaim ManufacturerBulkImportView (get_request ["A"; "B"])
                  w0 _ "A" ["B"] _ _ eq_refl eq_refl eq_refl).
    vm_compute in Hclaim. discriminate Hclaim.
  - specialize (Hclaim ManufacturerBulkImportView (get_request ["A"; "B"])
                  w0 _ "A" ["B"] _ _ eq_refl eq_refl eq_refl).
    vm_compute in Hclaim. discriminate Hclaim.
Qed.

(** ** [check_data] *)

Lemma check_one_run (d : Descriptor) (w : World) :
  WelcomeWizardDashboard.check_one d w
  = let r := reconcile_step (nautobot_objects w) d (merlins w, orm_log w) in
    (with_table r.1 w, r.2).
Proof.
  destruct d as [[[[m n] list_url] new_url] wizard_url].
  unfold WelcomeWizardDashboard.check_one, reconcile_step, nautobot_exists,
    merlin_update_completed, merlin_get, merlin_create, objects_get,
    with_table, turn_log, d_model, d_name, named, mark, has_rows.
  eff_unfold. destruct w as [cfg inv imp mer repos jbs jq sq msgs lg]; simpl.
  destruct (filter _ _) as [|row [|row' more]]; setters_unfold; simpl;
    rewrite <- ?app_assoc; reflexivity.
Qed.

Lemma with_table_with_table st st' w :
  with_table st' (with_table st w) = with_table st' w.
Proof. by destruct w. Qed.

Lemma check_loop_run (ds : list Descriptor) (w : World) :
  for_each ds (λ _ d, WelcomeWizardDashboard.check_one d) tt w
  = let r := reconcile (nautobot_objects w) ds (merlins w, orm_log w) in
    (with_table r.1 w, r.2).
Proof.
  revert w. induction ds as [|d ds IH]; intros w.
  - by destruct w.
  - simpl for_each. rewrite bind_run, check_one_run. simpl.
    destruct (reconcile_step _ d _) as [[t1 lg1] [e|[]]]; simpl; [done|].
    rewrite IH. simpl. rewrite with_table_with_table.
    by destruct w.
Qed.

Lemma check_data_run (w : World) :
  WelcomeWizardDashboard.check_data w
  = let r := reconcile (nautobot_objects w)
               WelcomeWizardDashboard.descriptors (merlins w, orm_log w) in
    (with_table r.1 w, r.2).
Proof. apply check_loop_run. Qed.

(** *** The table under one turn *)

Lemma with_completed_name c m : merlin_name (with_completed c m) = merlin_name m.
Proof. reflexivity. Qed.

Lemma with_completed_id m : with_completed (completed m) m = m.
Proof. by destruct m. Qed.

Lemma named_mark n' n c t : named n' (mark n c t) = mark n c (named n' t).
Proof.
  unfold named, mark. induction t as [|m t IH]; [done|].
  rewrite fmap_cons, !filter_cons.
  assert (Hname : merlin_name
            (if decide (merlin_name m = n) then with_completed c m else m)
          = merlin_name m) by (by case_decide).
  rewrite Hname.
  destruct (decide (merlin_name m = n')); [|done].
  by rewrite fmap_cons, IH.
Qed.

Lemma mark_named_same n c t :
  mark n c (named n t) = with_completed c <$> named n t.
Proof.
  unfold mark. apply list_fmap_ext. intros i m Hm.
  apply list_elem_of_lookup_2, list_elem_of_filter in Hm as [Hn _].
  by rewrite decide_True.
Qed.

Lemma mark_named_other n n' c t : n ≠ n' → mark n c (named n' t) = named n' t.
Proof.
  intros Hne. unfold mark. rewrite <- (list_fmap_id (named n' t)) at 2.
  apply list_fmap_ext. intros i m Hm.
  apply list_elem_of_lookup_2, list_elem_of_filter in Hm as [Hn _].
  rewrite decide_False by congruence. done.
Qed.

Lemma mark_settled n c t row :
  named n t = [row] → completed row = c → mark n c t = t.
Proof.
  intros Hrow Hc. unfold mark. rewrite <- (list_fmap_id t) at 2.
  apply list_fmap_ext. intros i m Hm. case_decide as Hn; [|done].
  assert (Hin : m ∈ named n t).
  { apply list_elem_of_filter. split; [done|].
    by eapply list_elem_of_lookup_2. }
  rewrite Hrow in Hin. apply list_elem_of_singleton in Hin as ->.
  rewrite <- Hc. apply with_completed_id.
Qed.

Lemma mark_same_but_completed n c t : Forall2 same_but_completed t (mark n c t).
Proof.
  unfold mark. induction t as [|a t IH]; [constructor|].
  rewrite fmap_cons. constructor; [|exact IH].
  unfold same_but_completed. case_decide; [done|].
  by rewrite with_completed_id.
Qed.

Lemma same_but_completed_trans a b c :
  same_but_completed a b → same_but_completed b c → same_but_completed a c.
Proof. unfold same_but_completed. intros -> ->. reflexivity. Qed.

Lemma named_app n t1 t2 : named n (t1 ++ t2) = named n t1 ++ named n t2.
Proof. apply filter_app. Qed.

Lemma created_row_name d c : merlin_name (created_row d c) = d_name d.
Proof. by destruct d as [[[[m n] list_url] new_url] wizard_url]. Qed.

Lemma named_created_self d c :
  named (d_name d) [created_row d c] = [created_row d c].
Proof. unfold named. by rewrite filter_cons_True by apply created_row_name. Qed.

Lemma named_created_other d c n' :
  d_name d ≠ n' → named n' [created_row d c] = [].
Proof.
  intros Hne. unfold named.
  by rewrite filter_cons_False by (by rewrite created_row_name).
Qed.

(** A turn leaves the rows of every other name alone. *)
Lemma reconcile_step_other inv d st st' r n' :
  reconcile_step inv d st = (st', r) → d_name d ≠ n' →
  named n' st'.1 = named n' st.1.
Proof.
  unfold reconcile_step. intros Hstep Hne.
  assert (Hmark : named n' (mark (d_name d) (has_rows inv (d_model d)) st.1)
                  = named n' st.1)
    by (by rewrite named_mark, mark_named_other).
  destruct (named (d_name d) _) as [|row [|row' more]]; simplify_eq; simpl;
    [|done|done].
  by rewrite named_app, Hmark, named_created_other, app_nil_r.
Qed.

(** A turn that succeeds leaves exactly one row of its own name, with the
    fresh [completed]; it is the created row if there was none before. *)
Lemma reconcile_step_self inv d st st' :
  reconcile_step inv d st = (st', inr tt) →
  ∃ row, named (d_name d) st'.1 = [row] ∧
         completed row = has_rows inv (d_model d) ∧
         (named (d_name d) st.1 = [] →
          row = created_row d (has_rows inv (d_model d))).
Proof.
  unfold reconcile_step. rewrite named_mark, mark_named_same.
  destruct (named (d_name d) st.1) as [|row [|row' more]] eqn:Hrows; simpl;
    intros Hstep; simplify_eq; simpl.
  - exists (created_row d (has_rows inv (d_model d))).
    rewrite named_app, named_mark, Hrows, named_created_self.
    split; [done|]. split; [|done].
    by destruct d as [[[[m n] list_url] new_url] wizard_url].
  - exists (with_completed (has_rows inv (d_model d)) row).
    rewrite named_mark, mark_named_same, Hrows. done.
Qed.

Lemma reconcile_other inv ds st st' r n' :
  reconcile inv ds st = (st', r) → n' ∉ d_name <$> ds →
  named n' st'.1 = named n' st.1.
Proof.
  revert st. induction ds as [|d ds IH]; intros st Hrun Hn'; simpl in *.
  - by simplify_eq.
  - apply not_elem_of_cons in Hn' as [Hne Hn'].
    destruct (reconcile_step inv d st) as [st1 [e|[]]] eqn:Hstep.
    + simplify_eq. by eapply reconcile_step_other.
    + rewrite (IH st1) by done. by eapply reconcile_step_other.
Qed.

(** After a run that succeeds, every descriptor with a name of its own has
    exactly one row, freshly marked. *)
Lemma reconcile_ok inv ds st st' :
  NoDup (d_name <$> ds) →
  reconcile inv ds st = (st', inr tt) →
  ∀ d, d ∈ ds →
    ∃ row, named (d_name d) st'.1 = [row] ∧
           completed row = has_rows inv (d_model d) ∧
           (named (d_name d) st.1 = [] →
            row = created_row d (has_rows inv (d_model d))).
Proof.
  revert st. induction ds as [|d0 ds IH]; intros st Hnd Hrun d Hd.
  - by apply elem_of_nil in Hd.
  - rewrite fmap_cons in Hnd. apply NoDup_cons in Hnd as [Hfresh Hnd].
    simpl in Hrun.
    destruct (reconcile_step inv d0 st) as [st1 [e|[]]] eqn:Hstep;
      [by simplify_eq|].
    apply elem_of_cons in Hd as [->|Hd].
    + destruct (reconcile_step_self _ _ _ _ Hstep) as (row & Hrow & Hc & Hnew).
      exists row. by rewrite (reconcile_other _ _ _ _ _ _ Hrun Hfresh).
    + destruct (IH st1 Hnd Hrun d Hd) as (row & Hrow & Hc & Hnew).
      exists row. split; [done|]. split; [done|]. intros Hnone. apply Hnew.
      rewrite (reconcile_step_other _ _ _ _ _ _ Hstep); [done|].
      intros Heq. apply Hfresh. rewrite Heq. by apply list_elem_of_fmap_2.
Qed.

Lemma descriptors_NoDup : NoDup (d_name <$> WelcomeWizardDashboard.descriptors).
Proof. compute_done. Qed.

(** A turn returns unless its name has several rows. *)
Lemma reconcile_step_succeeds inv d st :
  length (named (d_name d) st.1) ≤ 1 →
  ∃ st', reconcile_step inv d st = (st', inr tt).
Proof.
  intros Hlen. unfold reconcile_step. rewrite named_mark, mark_named_same.
  destruct (named (d_name d) st.1) as [|row [|row' more]]; simpl in *;
    [by eexists | by eexists | lia].
Qed.

Lemma reconcile_succeeds inv ds st :
  NoDup (d_name <$> ds) →
  (∀ d, d ∈ ds → length (named (d_name d) st.1) ≤ 1) →
  ∃ st', reconcile inv ds st = (st', inr tt).
Proof.
  revert st. induction ds as [|d ds IH]; intros st Hnd Hall.
  - by eexists.
  - rewrite fmap_cons in Hnd. apply NoDup_cons in Hnd as [Hfresh Hnd].
    destruct (reconcile_step_succeeds inv d st) as [st1 Hstep];
      [apply Hall; left|].
    simpl. rewrite Hstep. apply IH; [done|]. intros d' Hd'.
    rewrite (reconcile_step_other _ _ _ _ _ _ Hstep); [apply Hall; by right|].
    intros Heq. apply Hfresh. rewrite Heq. by apply list_elem_of_fmap_2.
Qed.

(** [check_data] returns on every table in which no tracked name has more
    than one row; on a fresh, empty table in particular. *)
Lemma check_data_succeeds (w : World) :
  (∀ d, d ∈ WelcomeWizardDashboard.descriptors →
        length (named (d_name d) (merlins w)) ≤ 1) →
  ∃ w', WelcomeWizardDashboard.check_data w = (w', inr tt).
Proof.
  intros Hall. rewrite check_data_run.
  destruct (reconcile_succeeds (nautobot_objects w)
              WelcomeWizardDashboard.descriptors (merlins w, orm_log w)
              descriptors_NoDup Hall) as [st' Hrun].
  rewrite Hrun. by eexists.
Qed.

(** C2: after a run of [check_data] that returns, each of the seven
    descriptors has exactly one [Merlin] row of its name, whose
    [completed] is the existence check of the descriptor's model; where no
    row of that name existed before, the row is the created one:
    [ignored] false and the descriptor's three links. *)
Theorem check_data_reconciles (w w' : World) :
  WelcomeWizardDashboard.check_data w = (w', inr tt) →
  ∀ nautobot_object var_name list_url new_url wizard_url,
    (nautobot_object, var_name, list_url, new_url, wizard_url)
    ∈ WelcomeWizardDashboard.descriptors →
    ∃ row,
      filter (λ m, merlin_name m = var_name) (merlins w') = [row] ∧
      completed row = bool_decide (0 < nautobot_objects w' nautobot_object) ∧
      (filter (λ m, merlin_name m = var_name) (merlins w) = [] →
       row = {| merlin_name := var_name;
                completed :=
                  bool_decide (0 < nautobot_objects w' nautobot_object);
                ignored := false;
                nautobot_model := nautobot_object;
                nautobot_add_link := new_url;
                merlin_link := wizard_url;
                nautobot_list_link := list_url |}).
Proof.
  intros Hrun m n list_url new_url wizard_url Hd.
  rewrite check_data_run in Hrun.
  destruct (reconcile _ _ _) as [st' res] eqn:Hrec. simpl in Hrun.
  injection Hrun as <- ->.
  destruct (reconcile_ok _ _ _ _ descriptors_NoDup Hrec _ Hd)
    as (row & Hrow & Hc & Hnew).
  exists row. done.
Qed.

(** *** A second run *)

Lemma reconcile_step_settled inv d st row :
  named (d_name d) st.1 = [row] →
  completed row = has_rows inv (d_model d) →
  reconcile_step inv d st = ((st.1, st.2 ++ turn_log inv d), inr tt).
Proof.
  intros Hrow Hc. unfold reconcile_step.
  rewrite (mark_settled _ _ _ row) by done. by rewrite Hrow.
Qed.

Lemma reconcile_settled inv ds t lg :
  (∀ d, d ∈ ds → ∃ row, named (d_name d) t = [row] ∧
                        completed row = has_rows inv (d_model d)) →
  reconcile inv ds (t, lg) = ((t, lg ++ (ds ≫= turn_log inv)), inr tt).
Proof.
  revert lg. induction ds as [|d ds IH]; intros lg Hall.
  - simpl. by rewrite app_nil_r.
  - destruct (Hall d) as (row & Hrow & Hc); [left|].
    rewrite bind_cons, app_assoc.
    simpl reconcile. rewrite (reconcile_step_settled _ _ _ row) by done.
    cbn [fst snd]. by rewrite IH by (intros d' Hd'; apply Hall; by right).
Qed.

Lemma reconcile_step_tracked inv d st :
  length (named (d_name d) st.1) = 1 →
  reconcile_step inv d st
  = ((mark (d_name d) (has_rows inv (d_model d)) st.1,
      st.2 ++ turn_log inv d), inr tt).
Proof.
  intros Hlen. unfold reconcile_step. rewrite named_mark, mark_named_same.
  by destruct (named (d_name d) st.1) as [|row [|row' more]].
Qed.

Lemma same_but_completed_refl t : Forall2 same_but_completed t t.
Proof.
  induction t; constructor; [|done].
  unfold same_but_completed. by rewrite with_completed_id.
Qed.

(** When every descriptor has its one row, a run succeeds whatever the
    inventory, creates nothing, and writes [completed] only. *)
Lemma reconcile_tracked inv ds st :
  (∀ d, d ∈ ds → length (named (d_name d) st.1) = 1) →
  ∃ st', reconcile inv ds st = (st', inr tt) ∧
         Forall2 same_but_completed st.1 st'.1.
Proof.
  revert st. induction ds as [|d ds IH]; intros st Hall.
  - exists st. split; [done|apply same_but_completed_refl].
  - simpl reconcile. rewrite reconcile_step_tracked by (apply Hall; left).
    destruct (IH (mark (d_name d) (has_rows inv (d_model d)) st.1,
                  st.2 ++ turn_log inv d)) as (st' & Hrun & Hsame).
    { intros d' Hd'. simpl. rewrite named_mark. unfold mark.
      rewrite length_fmap. apply Hall. by right. }
    exists st'. split; [done|]. simpl in Hsame.
    eapply Forall2_trans; [|apply mark_same_but_completed|exact Hsame].
    apply same_but_completed_trans.
Qed.

(** C3: once [check_data] has run, running it again on unchanged data
    changes nothing but the ORM log, and that log shows reads and updates
    only: no row is created or deleted, and every row keeps its fields.
    Whatever the inventory has become, a later run succeeds and leaves each
    row as it was except, at most, for [completed]. *)
Theorem check_data_idempotent (w w1 : World) :
  WelcomeWizardDashboard.check_data w = (w1, inr tt) →
  WelcomeWizardDashboard.check_data w1
  = (set_orm_log (λ l, l ++ reconcile_log (nautobot_objects w1)) w1, inr tt)
  ∧ (OrmInsert T_Merlin ∉ reconcile_log (nautobot_objects w1))
  ∧ (∀ w1', merlins w1' = merlins w1 →
       ∃ w2, WelcomeWizardDashboard.check_data w1' = (w2, inr tt) ∧
             Forall2 same_but_completed (merlins w1') (merlins w2)).
Proof.
  intros Hrun. rewrite check_data_run in Hrun.
  destruct (reconcile _ _ _) as [st' res] eqn:Hrec. simpl in Hrun.
  injection Hrun as <- ->.
  pose proof (reconcile_ok _ _ _ _ descriptors_NoDup Hrec) as Hok.
  split; [|split].
  - rewrite check_data_run.
    change (nautobot_objects (with_table st' w)) with (nautobot_objects w).
    change (merlins (with_table st' w)) with st'.1.
    rewrite reconcile_settled.
    + by destruct w.
    + intros d Hd. destruct (Hok d Hd) as (row & Hrow & Hc & _). by exists row.
  - unfold reconcile_log. rewrite list_elem_of_bind.
    intros (d & Hin & _). unfold turn_log in Hin.
    repeat (apply elem_of_cons in Hin as [Hin|Hin]; [discriminate Hin|]).
    by apply elem_of_nil in Hin.
  - intros w1' Hsame. rewrite check_data_run.
    destruct (reconcile_tracked (nautobot_objects w1')
                WelcomeWizardDashboard.descriptors (merlins w1', orm_log w1'))
      as (st2 & Hrun2 & Hrows).
    { intros d Hd. simpl. rewrite Hsame.
      change (merlins (with_table st' w)) with st'.1.
      destruct (Hok d Hd) as (row & Hrow & _). by rewrite Hrow. }
    eexists. rewrite Hrun2. split; [reflexivity|].
    by destruct w1'.
Qed.

Lemma check_data_reconciles_witness :
  WelcomeWizardDashboard.check_data w0 = (w_reconciled, inr tt) ∧
  ∀ nautobot_object var_name list_url new_url wizard_url,
    (nautobot_object, var_name, list_url, new_url, wizard_url)
    ∈ WelcomeWizardDashboard.descriptors →
    ∃ row,
      filter (λ m, merlin_name m = var_name) (merlins w_reconciled) = [row] ∧
      completed row
      = bool_decide (0 < nautobot_objects w_reconciled nautobot_object) ∧
      (filter (λ m, merlin_name m = var_name) (merlins w0) = [] →
       row = {| merlin_name := var_name;
                completed :=
                  bool_decide
                    (0 < nautobot_objects w_reconciled nautobot_object);
                ignored := false;
                nautobot_model := nautobot_object;
                nautobot_add_link := new_url;
                merlin_link := wizard_url;
                nautobot_list_link := list_url |}).
Proof.
  assert (Hrun : WelcomeWizardDashboard.check_data w0 = (w_reconciled, inr tt))
    by (vm_compute; reflexivity).
  split; [exact Hrun|].
  exact (check_data_reconciles w0 w_reconciled Hrun).
Defined.

Lemma check_data_idempotent_witness :
  WelcomeWizardDashboard.check_data w0 = (w_reconciled, inr tt) ∧
  WelcomeWizardDashboard.check_data w_reconciled
  = (set_orm_log (λ l, l ++ reconcile_log (nautobot_objects w_reconciled))
       w_reconciled, inr tt)
  ∧ (OrmInsert T_Merlin ∉ reconcile_log (nautobot_objects w_reconciled))
  ∧ (∀ w1', merlins w1' = merlins w_reconciled →
       ∃ w2, WelcomeWizardDashboard.check_data w1' = (w2, inr tt) ∧
             Forall2 same_but_completed (merlins w1') (merlins w2)).
Proof.
  assert (Hrun : WelcomeWizardDashboard.check_data w0 = (w_reconciled, inr tt))
    by (vm_compute; reflexivity).
  split; [exact Hrun|].
  exact (check_data_idempotent w0 w_reconciled Hrun).
Defined.

(** The first run on the sample installation creates the seven rows, in
    the descriptors' order; only "Manufacturers" is complete. *)
Example check_data_first_run :
  (merlin_name <$> merlins w_reconciled)
  = ["Locations"; "Manufacturers"; "Device Types"; "Circuit Types";
     "Circuit Providers"; "RIRs"; "VM Cluster Types"]
  ∧ (completed <$> merlins w_reconciled)
    = [false; true; false; false; false; false; false]
  ∧ (ignored <$> merlins w_reconciled) = replicate 7 false.
Proof. vm_compute. done. Qed.

(** A table with two rows of one tracked name stops the run:
    [MultipleObjectsReturned] is not caught. *)
Example check_data_duplicate_rows :
  let w := set_merlins (λ t, t ++ t) w_reconciled in
  (WelcomeWizardDashboard.check_data w).2
  = inl (MultipleObjectsReturned T_Merlin).
Proof. vm_compute. done. Qed.

(** * Further properties *)

(** ** [check_sync], branch by branch *)

(** X1: when a sync is due and exactly one repository has the slug,
    [check_sync] enqueues the sync with that stored repository, whatever
    its name, URL or branch, and stores nothing: the repository table is
    as before. *)
Theorem check_sync_reuses_repository
    (instance : ListView) (request : HttpRequest) (w : World)
    (repo : GitRepository) :
  plugin_config w !! "enable_devicetype-library" = Some true →
  import_objects w (lv_queryset instance) = [] →
  filter (λ r, slug r = "devicetype_library") (git_repositories w) = [repo] →
  ∃ w',
    check_sync instance request w = (w', inr tt) ∧
    git_repositories w' = git_repositories w ∧
    git_sync_queue w' = git_sync_queue w ++ [(repo, user request)] ∧
    orm_log w'
    = orm_log w ++ [OrmExists (T_Import (lv_queryset instance));
                    OrmGet T_GitRepository "slug" "devicetype_library"].
Proof.
  intros Hflag Hempty Hrows. rewrite check_sync_run.
  unfold sync_due, library_rows. rewrite Hflag, Hempty, Hrows.
  rewrite !bool_decide_eq_true_2 by done. simpl.
  eexists. split; [reflexivity|]. by destruct w.
Qed.

Lemma check_sync_reuses_repository_witness :
  plugin_config (with_repositories [stored_library] w_empty)
    !! "enable_devicetype-library" = Some true ∧
  import_objects (with_repositories [stored_library] w_empty)
    (lv_queryset ManufacturerListView.self) = [] ∧
  filter (λ r, slug r = "devicetype_library")
    (git_repositories (with_repositories [stored_library] w_empty))
  = [stored_library] ∧
  ∃ w',
    check_sync ManufacturerListView.self (get_request [])
      (with_repositories [stored_library] w_empty) = (w', inr tt) ∧
    git_repositories w'
    = git_repositories (with_repositories [stored_library] w_empty) ∧
    git_sync_queue w'
    = git_sync_queue (with_repositories [stored_library] w_empty)
      ++ [(stored_library, user (get_request []))] ∧
    orm_log w'
    = orm_log (with_repositories [stored_library] w_empty)
      ++ [OrmExists (T_Import (lv_queryset ManufacturerListView.self));
          OrmGet T_GitRepository "slug" "devicetype_library"].
Proof.
  repeat (split; [reflexivity|]).
  apply (check_sync_reuses_repository ManufacturerListView.self
           (get_request []) (with_repositories [stored_library] w_empty)
           stored_library); reflexivity.
Defined.

(** X2: when the flag is absent from the plugin's configuration, or
    false, [check_sync] does nothing at all: [and] short-circuits, so not
    even the view's queryset is asked whether it has rows. *)
Theorem check_sync_flag_off_is_silent
    (instance : ListView) (request : HttpRequest) (w : World) :
  plugin_config w !! "enable_devicetype-library" ≠ Some true →
  check_sync instance request w = (w, inr tt).
Proof.
  intros Hflag. rewrite check_sync_run. unfold sync_due.
  rewrite (bool_decide_eq_false_2 _ Hflag). reflexivity.
Qed.

Lemma check_sync_flag_off_is_silent_witness :
  plugin_config (with_plugin_config ∅ w_empty)
    !! "enable_devicetype-library" ≠ Some true ∧
  check_sync DeviceTypeListView.self (get_request [])
    (with_plugin_config ∅ w_empty)
  = (with_plugin_config ∅ w_empty, inr tt).
Proof.
  assert (Hflag : plugin_config (with_plugin_config ∅ w_empty)
                    !! "enable_devicetype-library" ≠ Some true)
    by discriminate.
  split; [exact Hflag|].
  exact (check_sync_flag_off_is_silent DeviceTypeListView.self
           (get_request []) (with_plugin_config ∅ w_empty) Hflag).
Defined.



(** X4: whatever its input and outcome, [check_sync] leaves the plugin's
    configuration, the inventory, the import tables, the dashboard table,
    the jobs, the job queue and the messages alone.  The repository table
    and the sync queue only grow, by at most one entry each, and a
    repository is stored only together with the sync that uses it. *)
Theorem check_sync_frame
    (instance : ListView) (request : HttpRequest) (w : World) :
  let w' := (check_sync instance request w).1 in
  plugin_config w' = plugin_config w ∧
  nautobot_objects w' = nautobot_objects w ∧
  import_objects w' = import_objects w ∧
  merlins w' = merlins w ∧
  jobs w' = jobs w ∧
  job_queue w' = job_queue w ∧
  flash_messages w' = flash_messages w ∧
  ∃ stored synced,
    git_repositories w' = git_repositories w ++ stored ∧
    git_sync_queue w' = git_sync_queue w ++ synced ∧
    length stored ≤ 1 ∧ length synced ≤ 1 ∧
    ∀ repo, repo ∈ stored → synced = [(repo, user request)].
Proof.
  rewrite check_sync_run.
  destruct (sync_due instance w).
  - destruct (library_rows w) as [|r1 [|r2 more]]; simpl.
    + repeat (split; [by destruct w|]).
      exists [devicetype_library], [(devicetype_library, user request)].
      split; [by destruct w|]. split; [by destruct w|].
      split; [done|]. split; [done|].
      by intros repo ->%list_elem_of_singleton.
    + repeat (split; [by destruct w|]).
      exists [], [(r1, user request)].
      split; [destruct w; simpl; by rewrite app_nil_r|].
      split; [by destruct w|]. split; [simpl; lia|]. split; [done|].
      by intros repo ?%elem_of_nil.
    + repeat (split; [by destruct w|]).
      exists [], [].
      split; [destruct w; simpl; by rewrite app_nil_r|].
      split; [destruct w; simpl; by rewrite app_nil_r|].
      split; [simpl; lia|]. split; [simpl; lia|].
      by intros repo ?%elem_of_nil.
  - case_bool_decide; simpl.
    + repeat (split; [by destruct w|]).
      exists [], [].
      split; [destruct w; simpl; by rewrite app_nil_r|].
      split; [destruct w; simpl; by rewrite app_nil_r|].
      split; [simpl; lia|]. split; [simpl; lia|].
      by intros repo ?%elem_of_nil.
    + repeat (split; [done|]).
      exists [], [].
      split; [by rewrite app_nil_r|]. split; [by rewrite app_nil_r|].
      split; [simpl; lia|]. split; [simpl; lia|].
      by intros repo ?%elem_of_nil.
Qed.

(** X5: once a due sync has run on a table with at most one repository of
    the slug, exactly one such repository exists, and every later
    [check_sync], from either view and for any user, stores no further
    repository and, when it is due, syncs that same one. *)
Theorem check_sync_stores_once
    (instance : ListView) (request : HttpRequest) (w : World) :
  length (library_rows w) ≤ 1 →
  sync_due instance w = true →
  ∃ w1 repo,
    check_sync instance request w = (w1, inr tt) ∧
    library_rows w1 = [repo] ∧
    ∀ instance2 request2,
      ∃ w2,
        check_sync instance2 request2 w1 = (w2, inr tt) ∧
        git_repositories w2 = git_repositories w1 ∧
        git_sync_queue w2
        = git_sync_queue w1
          ++ (if sync_due instance2 w1 then [(repo, user request2)] else []).
Proof.
  intros Hslug Hdue.
  assert (Hlater : ∀ w1 repo instance2 request2,
            library_rows w1 = [repo] →
            ∃ w2,
              check_sync instance2 request2 w1 = (w2, inr tt) ∧
              git_repositories w2 = git_repositories w1 ∧
              git_sync_queue w2
              = git_sync_queue w1
                ++ (if sync_due instance2 w1
                    then [(repo, user request2)] else [])).
  { intros w1 repo instance2 request2 Hrows. rewrite check_sync_run, Hrows.
    destruct (sync_due instance2 w1).
    - eexists. split; [reflexivity|]. by destruct w1.
    - case_bool_decide; (eexists; split; [reflexivity|]);
        destruct w1; simpl; by rewrite app_nil_r. }
  rewrite check_sync_run, Hdue.
  destruct (library_rows w) as [|r1 [|r2 more]] eqn:Hrows;
    [| |simpl in Hslug; lia].
  - eexists _, devicetype_library. split; [reflexivity|].
    assert (Hone : library_rows
              (set_git_sync_queue
                 (λ q, q ++ [(devicetype_library, user request)])
                 (set_git_repositories (λ l, l ++ [devicetype_library])
                    (set_orm_log (λ l, l ++
                       [OrmExists (T_Import (lv_queryset instance));
                        OrmGet T_GitRepository "slug" "devicetype_library";
                        OrmInsert T_GitRepository]) w)))
            = [devicetype_library]).
    { destruct w; unfold library_rows in *; simpl in *.
      by rewrite filter_app, Hrows. }
    split; [exact Hone|]. intros instance2 request2. by apply Hlater.
  - eexists _, r1.
    split; [reflexivity|].
    assert (Hone : library_rows
              (set_git_sync_queue (λ q, q ++ [(r1, user request)])
                 (set_orm_log (λ l, l ++
                    [OrmExists (T_Import (lv_queryset instance));
                     OrmGet T_GitRepository "slug" "devicetype_library"]) w))
            = [r1])
      by (by destruct w).
    split; [exact Hone|]. intros instance2 request2. by apply Hlater.
Qed.

Lemma check_sync_stores_once_witness :
  length (library_rows w_empty) ≤ 1 ∧
  sync_due ManufacturerListView.self w_empty = true ∧
  ∃ w1 repo,
    check_sync ManufacturerListView.self (get_request []) w_empty
    = (w1, inr tt) ∧
    library_rows w1 = [repo] ∧
    ∀ instance2 request2,
      ∃ w2,
        check_sync instance2 request2 w1 = (w2, inr tt) ∧
        git_repositories w2 = git_repositories w1 ∧
        git_sync_queue w2
        = git_sync_queue w1
          ++ (if sync_due instance2 w1 then [(repo, user request2)] else []).
Proof.
  assert (Hslug : length (library_rows w_empty) ≤ 1) by (simpl; lia).
  split; [exact Hslug|]. split; [reflexivity|].
  exact (check_sync_stores_once ManufacturerListView.self (get_request [])
           w_empty Hslug eq_refl).
Defined.

(** ** [BulkImportView.get], edge by edge *)

(** X6: [get] answers with a redirect exactly when the request carries no
    [pk] parameter or the last [pk] value is the empty string (a bare
    [?pk=]); the redirect then goes to the return location and the world
    is untouched. *)
Theorem get_redirects_iff_no_pk
    (self : BulkImportView.attrs) (request : HttpRequest) (w : World) :
  ((∃ to, (BulkImportView.get self request w).2
          = inr (HttpResponseRedirect to))
   ↔ (last (getlist "pk" (GET request)) = None
      ∨ last (getlist "pk" (GET request)) = Some ""))
  ∧ (last (getlist "pk" (GET request)) = None
     ∨ last (getlist "pk" (GET request)) = Some "" →
     BulkImportView.get self request w
     = (w, inr (HttpResponseRedirect (BulkImportView.return_url self)))).
Proof.
  unfold BulkImportView.get, QueryDict_get, QueryDict_getitem, objects_get.
  destruct (last (getlist "pk" (GET request))) as [v|] eqn:Hlast; simpl.
  - case_bool_decide as Hv; simpl.
    + split.
      * split; [|intros [?|?]; congruence].
        intros [to Hto]. exfalso. revert Hto. eff_unfold. simpl.
        by destruct (filter _ _) as [|row [|row' more]].
      * intros [?|?]; congruence.
    + subst v. split; [|done].
      split; [by right|]. intros _. by eexists.
  - split; [|done]. split; [by left|]. intros _. by eexists.
Qed.



(** X9: [get] only reads: on every request and whatever its outcome, the
    world after it is the world before it with at most one ORM call
    appended to the log. *)
Theorem get_is_read_only
    (self : BulkImportView.attrs) (request : HttpRequest) (w : World) :
  ∃ calls,
    (BulkImportView.get self request w).1 = set_orm_log (λ l, l ++ calls) w ∧
    length calls ≤ 1.
Proof.
  unfold BulkImportView.get, QueryDict_get, QueryDict_getitem, objects_get.
  destruct (last (getlist "pk" (GET request))) as [v|]; simpl.
  - case_bool_decide; simpl.
    + exists [OrmGet (T_Import (BulkImportView.model self)) "pk" v].
      split; [|done]. eff_unfold. simpl.
      by destruct (filter _ _) as [|row [|row' more]].
    + exists []. split; [|simpl; lia].
      destruct w; setters_unfold; simpl. by rewrite app_nil_r.
  - exists []. split; [|simpl; lia].
    destruct w; setters_unfold; simpl. by rewrite app_nil_r.
Qed.

(** ** [BulkImportView.post], on every path *)

Section PostPaths.

Variable has_perms : User → string → bool.
Variable is_valid : FormClass → World → QueryDict → bool.

(** A permitted, valid [post] with a matched row, when the view's job is
    not registered exactly once: the first turn's lookup raises. *)
Lemma post_run_lookup_fails (self : BulkImportView.attrs)
    (request : HttpRequest) (w : World) :
  BulkImportView.has_permission has_perms self request = true →
  is_valid (BulkImportView.form self) w (POST request) = true →
  matched self request w ≠ [] →
  length (filter (λ j, job_name j
                       = import_job_name (BulkImportView.model self))
                 (jobs w)) ≠ 1 →
  BulkImportView.post has_perms is_valid self request w
  = (set_orm_log (λ l, l ++
       [OrmFilterIn (T_Import (BulkImportView.model self)) "pk"
          (getlist "pk" (POST request));
        OrmGet T_Job "name" (import_job_name (BulkImportView.model self))]) w,
     inl (match filter (λ j, job_name j
                             = import_job_name (BulkImportView.model self))
                       (jobs w) with
          | [] => DoesNotExist T_Job
          | _ => MultipleObjectsReturned T_Job
          end)).
Proof.
  intros Hp Hv Hsome Hjob. unfold BulkImportView.post. rewrite Hp. cbn [negb].
  unfold import_filter_pk_in, messages_success. eff_unfold. simpl.
  rewrite Hv. fold (matched self request w).
  destruct (matched self request w) as [|obj objs]; [done|]. simpl.
  unfold BulkImportView.post_body, job_get, objects_get, enqueue_job.
  eff_unfold.
  destruct (BulkImportView.model self); simpl in *;
    destruct (filter _ (jobs w)) as [|j1 [|j2 more]]; simpl in *;
    try done; destruct w; setters_unfold; simpl;
    rewrite <- app_assoc; reflexivity.
Qed.


(** X11: whatever the request and the outcome, [post] leaves the plugin's
    configuration, every table and the sync queue alone; the job queue
    and the messages are only appended to. *)
Theorem post_frame
    (self : BulkImportView.attrs) (request : HttpRequest) (w : World) :
  let w' := (BulkImportView.post has_perms is_valid self request w).1 in
  plugin_config w' = plugin_config w ∧
  nautobot_objects w' = nautobot_objects w ∧
  import_objects w' = import_objects w ∧
  merlins w' = merlins w ∧
  git_repositories w' = git_repositories w ∧
  jobs w' = jobs w ∧
  git_sync_queue w' = git_sync_queue w ∧
  (∃ enqueued, job_queue w' = job_queue w ++ enqueued) ∧
  (∃ emitted, flash_messages w' = flash_messages w ++ emitted).
Proof.
  destruct (BulkImportView.has_permission has_perms self request) eqn:Hp.
  - destruct (is_valid (BulkImportView.form self) w (POST request)) eqn:Hv.
    + destruct (decide (matched self request w = [])) as [Hnone|Hsome].
      * rewrite post_run_unmatched by done. simpl.
        repeat (split; [by destruct w|]).
        split; [exists []|exists ["Onboarded 0 objects."]];
          destruct w; simpl; by rewrite ?app_nil_r.
      * destruct (decide (length (filter (λ j, job_name j
                    = import_job_name (BulkImportView.model self)) (jobs w))
                  = 1)) as [Hone|Hnot].
        -- destruct (filter _ (jobs w)) as [|job [|job' more]] eqn:Hjob;
             try done.
           rewrite (post_run _ _ _ _ job) by done. simpl.
           repeat (split; [by destruct w|]).
           split; eexists; destruct w; simpl; reflexivity.
        -- rewrite post_run_lookup_fails by done. simpl.
           repeat (split; [by destruct w|]).
           split; exists []; destruct w; simpl; by rewrite app_nil_r.
    + unfold BulkImportView.post. rewrite Hp. cbn [negb].
      eff_unfold. simpl. rewrite Hv. simpl.
      repeat (split; [done|]). split; exists []; by rewrite app_nil_r.
  - unfold BulkImportView.post. rewrite Hp. simpl.
    repeat (split; [done|]). split; exists []; by rewrite app_nil_r.
Qed.



End PostPaths.




(** ** [check_data], on every table *)






(** X14: whatever its outcome, [check_data] touches the dashboard table
    and nothing else: the configuration, the inventory, the import
    tables, the repositories, the jobs, both queues and the messages are
    as before. *)
Theorem check_data_frame (w : World) :
  let w' := (WelcomeWizardDashboard.check_data w).1 in
  plugin_config w' = plugin_config w ∧
  nautobot_objects w' = nautobot_objects w ∧
  import_objects w' = import_objects w ∧
  git_repositories w' = git_repositories w ∧
  jobs w' = jobs w ∧
  job_queue w' = job_queue w ∧
  git_sync_queue w' = git_sync_queue w ∧
  flash_messages w' = flash_messages w.
Proof. rewrite check_data_run. simpl. by destruct w. Qed.


(** X16: rows of a name that is not one of the seven tracked names are
    not touched at all, [completed] included, whatever the outcome. *)
Theorem check_data_ignores_untracked_names (w : World) (n : string) :
  n ∉ d_name <$> WelcomeWizardDashboard.descriptors →
  filter (λ m, merlin_name m = n)
         (merlins (WelcomeWizardDashboard.check_data w).1)
  = filter (λ m, merlin_name m = n) (merlins w).
Proof.
  intros Hn. rewrite check_data_run.
  destruct (reconcile _ _ _) as [st' r] eqn:Hrun.
  pose proof (reconcile_other _ _ _ _ _ _ Hrun Hn) as Hsame.
  by destruct w.
Qed.

Lemma check_data_ignores_untracked_names_witness :
  ("Tenants" ∉ d_name <$> WelcomeWizardDashboard.descriptors) ∧
  filter (λ m, merlin_name m = "Tenants")
         (merlins (WelcomeWizardDashboard.check_data w_custom).1)
  = filter (λ m, merlin_name m = "Tenants") (merlins w_custom).
Proof.
  assert (Hn : "Tenants" ∉ d_name <$> WelcomeWizardDashboard.descriptors)
    by compute_done.
  split; [exact Hn|].
  exact (check_data_ignores_untracked_names w_custom "Tenants" Hn).
Defined.

(** A run that returns found at most one row for each of its names. *)
Lemma reconcile_returns_bound inv ds st st' :
  NoDup (d_name <$> ds) →
  reconcile inv ds st = (st', inr tt) →
  ∀ d, d ∈ ds → length (named (d_name d) st.1) ≤ 1.
Proof.
  revert st. induction ds as [|d0 ds IH]; intros st Hnd Hrun d Hd.
  - by apply elem_of_nil in Hd.
  - rewrite fmap_cons in Hnd. apply NoDup_cons in Hnd as [Hfresh Hnd].
    simpl in Hrun.
    destruct (reconcile_step inv d0 st) as [st1 [e|[]]] eqn:Hstep;
      [by simplify_eq|].
    apply elem_of_cons in Hd as [->|Hd].
    + revert Hstep. unfold reconcile_step.
      rewrite named_mark, mark_named_same.
      destruct (named (d_name d0) st.1) as [|row [|row' more]]; simpl;
        intros; simplify_eq; lia.
    + rewrite <- (reconcile_step_other _ _ _ _ _ _ Hstep).
      * by apply (IH st1).
      * intros Heq. apply Hfresh. rewrite Heq. by apply list_elem_of_fmap_2.
Qed.

(** The only exception a run raises itself. *)
Lemma reconcile_exn_kind inv ds st st' e :
  reconcile inv ds st = (st', inl e) → e = MultipleObjectsReturned T_Merlin.
Proof.
  revert st. induction ds as [|d ds IH]; intros st Hrun; simpl in Hrun;
    [done|].
  destruct (reconcile_step inv d st) as [st1 [e1|[]]] eqn:Hstep;
    [|by eapply IH].
  simplify_eq. revert Hstep. unfold reconcile_step.
  destruct (named _ _) as [|row [|row' more]]; intros; by simplify_eq.
Qed.

(** X17: [check_data] returns exactly on the tables in which none of the
    seven tracked names has more than one row; when it does not return,
    what it raises is [MultipleObjectsReturned] of the dashboard table:
    the [except] clause catches [DoesNotExist] only. *)
Theorem check_data_returns_iff_no_duplicates (w : World) :
  ((∃ w', WelcomeWizardDashboard.check_data w = (w', inr tt))
   ↔ ∀ d, d ∈ WelcomeWizardDashboard.descriptors →
          length (filter (λ m, merlin_name m = d_name d) (merlins w)) ≤ 1)
  ∧ (∀ w' e, WelcomeWizardDashboard.check_data w = (w', inl e) →
             e = MultipleObjectsReturned T_Merlin).
Proof.
  split; [split|].
  - intros [w' Hrun]. rewrite check_data_run in Hrun.
    destruct (reconcile _ _ _) as [st' r] eqn:Hrec. simpl in Hrun.
    injection Hrun as _ ->.
    exact (reconcile_returns_bound _ _ _ _ descriptors_NoDup Hrec).
  - apply check_data_succeeds.
  - intros w' e Hrun. rewrite check_data_run in Hrun.
    destruct (reconcile _ _ _) as [st' r] eqn:Hrec. simpl in Hrun.
    injection Hrun as _ ->. by eapply reconcile_exn_kind.
Qed.




(** The hand-made dashboard after a load: the two rows keep their place,
    the stale "Locations" row is corrected but still ignored, and the six
    missing names follow in the descriptors' order. *)
Example check_data_custom_dashboard :
  let t := merlins (WelcomeWizardDashboard.check_data w_custom).1 in
  (merlin_name <$> t)
  = ["Tenants"; "Locations"; "Manufacturers"; "Device Types";
     "Circuit Types"; "Circuit Providers"; "RIRs"; "VM Cluster Types"]
  ∧ (completed <$> t) = [false; false; true; false; false; false; false; false]
  ∧ (ignored <$> t) = [true; true; false; false; false; false; false; false].
Proof. vm_compute. done. Qed.

(** X19: a dashboard page load on a table in which a tracked name has
    several rows fails: [get] runs [check_data] first, and its
    [MultipleObjectsReturned] reaches the caller before anything is
    rendered. *)
Theorem dashboard_get_fails_on_duplicates
    (request : HttpRequest) (w : World) (d : Descriptor) :
  d ∈ WelcomeWizardDashboard.descriptors →
  1 < length (filter (λ m, merlin_name m = d_name d) (merlins w)) →
  ∃ w', WelcomeWizardDashboard.get request w
        = (w', inl (MultipleObjectsReturned T_Merlin)).
Proof.
  intros Hd Hdup. unfold WelcomeWizardDashboard.get. rewrite bind_run.
  rewrite check_data_run.
  destruct (reconcile _ _ _) as [st' [e|[]]] eqn:Hrec; simpl.
  - rewrite (reconcile_exn_kind _ _ _ _ _ Hrec). by eexists.
  - pose proof (reconcile_returns_bound _ _ _ _ descriptors_NoDup Hrec d Hd)
      as Hle.
    unfold named in Hle. simpl in Hle. lia.
Qed.

Lemma dashboard_get_fails_on_duplicates_witness :
  (Location, "Locations", "dcim:location_list", "dcim:location_add", "")
  ∈ WelcomeWizardDashboard.descriptors ∧
  1 < length (filter (λ m, merlin_name m = "Locations") (merlins w_duplicate)) ∧
  ∃ w', WelcomeWizardDashboard.get (get_request []) w_duplicate
        = (w', inl (MultipleObjectsReturned T_Merlin)).
Proof.
  assert (Hd : (Location, "Locations", "dcim:location_list",
                "dcim:location_add", "")
               ∈ WelcomeWizardDashboard.descriptors) by left.
  assert (Hdup : 1 < length (filter (λ m, merlin_name m = "Locations")
                               (merlins w_duplicate)))
    by (vm_compute; lia).
  split; [exact Hd|]. split; [exact Hdup|].
  exact (dashboard_get_fails_on_duplicates (get_request []) w_duplicate
           _ Hd Hdup).
Defined.

(** ** An import and the dashboard *)

(** What a run does to the table and how it ends do not depend on the
    ORM log it started with. *)
Lemma reconcile_log_irrelevant inv ds t lg lg' :
  (reconcile inv ds (t, lg)).1.1 = (reconcile inv ds (t, lg')).1.1 ∧
  (reconcile inv ds (t, lg)).2 = (reconcile inv ds (t, lg')).2.
Proof.
  revert t lg lg'. induction ds as [|d ds IH]; intros t lg lg'; [done|].
  simpl. unfold reconcile_step. simpl.
  destruct (named (d_name d) (mark _ _ t)) as [|row [|row' more]];
    simpl; [apply IH | apply IH | done].
Qed.

Section ImportThenDashboard.

Variable has_perms : User → string → bool.
Variable is_valid : FormClass → World → QueryDict → bool.

(** X20: submitting an import does not tick the dashboard.  The jobs are
    only enqueued, so a dashboard load right after any POST, whatever the
    POST's outcome, leaves the same dashboard table, and ends the same
    way, as a load without it. *)
Theorem post_leaves_dashboard_alone
    (self : BulkImportView.attrs) (request : HttpRequest) (w : World) :
  let w1 := (BulkImportView.post has_perms is_valid self request w).1 in
  merlins (WelcomeWizardDashboard.check_data w1).1
  = merlins (WelcomeWizardDashboard.check_data w).1 ∧
  (WelcomeWizardDashboard.check_data w1).2
  = (WelcomeWizardDashboard.check_data w).2.
Proof.
  intros w1.
  assert (Hframe : nautobot_objects w1 = nautobot_objects w
                   ∧ merlins w1 = merlins w).
  { subst w1.
    destruct (BulkImportView.has_permission has_perms self request) eqn:Hp;
      [|unfold BulkImportView.post; by rewrite Hp].
    destruct (is_valid (BulkImportView.form self) w (POST request)) eqn:Hv.
    - destruct (decide (matched self request w = [])) as [Hnone|Hsome];
        [rewrite post_run_unmatched by done; by destruct w|].
      destruct (decide (length (filter (λ j, job_name j
                  = import_job_name (BulkImportView.model self)) (jobs w))
                = 1)) as [Hone|Hnot];
        [|rewrite post_run_lookup_fails by done; by destruct w].
      destruct (filter _ (jobs w)) as [|job [|job' more]] eqn:Hjob; try done.
      rewrite (post_run _ _ _ _ job) by done. by destruct w.
    - unfold BulkImportView.post. rewrite Hp. cbn [negb].
      eff_unfold. simpl. by rewrite Hv. }
  destruct Hframe as [Hinv Hmer].
  rewrite !check_data_run. simpl. rewrite Hinv, Hmer.
  destruct (reconcile_log_irrelevant (nautobot_objects w)
              WelcomeWizardDashboard.descriptors (merlins w)
              (orm_log w1) (orm_log w)) as [Ht Hr].
  split; [|exact Hr].
  destruct w1, w; simpl in *. exact Ht.
Qed.

End ImportThenDashboard.
